(** * acalib: the data cube (core/cube.py)

    A shallow embedding of [Cube] from [src/core/cube.py]: construction
    from four-dimensional instrument data, region resolution ([_slice]),
    flux accumulation ([add_flux]) and the extrema ([max], [min]), with
    the properties the specification states about them. *)

From Stdlib Require Import ZArith List Bool Lia Floats Ascii String.
From stdpp Require Import base option list strings gmap.

Local Open Scope Z_scope.

(** ** Python exceptions, the [astropy.log] records and results *)

Inductive exn : Type :=
| TypeError
| ValueError
| KeyError (key : string)
| AttributeError
| IndexError.

Inductive result (A : Type) : Type :=
| Return (a : A)
| Raise (e : exn).
Arguments Return {A} a.
Arguments Raise {A} e.

Definition triple (A : Type) : Type := (A * A * A)%type.

Inductive axis : Type := ax0 | ax1 | ax2.

#[export] Instance axis_eq_dec : EqDecision axis.
Proof. solve_decision. Defined.

Definition component {A : Type} (i : axis) (t : triple A) : A :=
  match i, t with
  | ax0, (x, _, _) => x
  | ax1, (_, y, _) => y
  | ax2, (_, _, z) => z
  end.

Definition map3 {A B : Type} (f : A -> B) (t : triple A) : triple B :=
  let '(x, y, z) := t in (f x, f y, f z).

Definition zip3 {A B C : Type} (f : A -> B -> C) (s : triple A) (t : triple B)
  : triple C :=
  let '(x, y, z) := s in let '(x', y', z') := t in (f x x', f y y', f z z').

(** [m.any()] on a boolean array of three elements. *)
Definition any3 (m : triple bool) : bool :=
  let '(x, y, z) := m in x || y || z.

(** The records written through [astropy.log], with the values their
    messages print. *)
Inductive log_record : Type :=
| warn_negative_lower (lower : triple Z)
| warn_lower_out_of_bounds (lower : triple Z) (shape : triple Z)
| warn_negative_upper (upper : triple Z)
| warn_upper_out_of_bounds (upper : triple Z) (shape : triple Z)
| error_only_4D.

(** A computation writes log records and then returns or raises; the
    records written before an exception stay written. *)
Definition M (A : Type) : Type := (list log_record * result A)%type.

Definition ret {A : Type} (a : A) : M A := ([], Return a).
Definition raise {A : Type} (e : exn) : M A := ([], Raise e).
Definition log (r : log_record) : M unit := ([r], Return tt).
Definition lift {A : Type} (r : result A) : M A := ([], r).

Definition bind {A B : Type} (m : M A) (k : A -> M B) : M B :=
  match m with
  | (l, Raise e) => (l, Raise e)
  | (l, Return a) => let '(l', r) := k a in (l ++ l', r)
  end.

Declare Scope py_scope.
Delimit Scope py_scope with py.
Notation "'let*' x ':=' m 'in' k" := (bind m (fun x => k))
  (at level 10, x name, m at level 100, k at level 200) : py_scope.
Local Open Scope py_scope.

(** ** Scalars

    The element type of the sample arrays, with the operations the code
    applies to it.  [float64] is numpy's default floating-point type. *)

Class Dtype (F : Type) : Type := {
  zero : F;
  neg_inf : F;
  pos_inf : F;
  add : F -> F -> F;
  mul : F -> F -> F;
  isnan : F -> bool;
  less : F -> F -> bool
}.

#[export] Instance float64 : Dtype float := {|
  zero := PrimFloat.zero;
  neg_inf := PrimFloat.neg_infinity;
  pos_inf := PrimFloat.infinity;
  add := PrimFloat.add;
  mul := PrimFloat.mul;
  isnan := PrimFloat.is_nan;
  less := PrimFloat.ltb
|}.

(** ** The numpy in use

    Two things the code relies on are not the same in every numpy.
    [a[l]] for a list [l] of slices is read as [a[tuple(l)]] by numpy
    before version 1.23 and raises [IndexError] from 1.23 on.  And
    [np.add.reduce] along an axis adds the elements in an order that
    depends on the memory layout (one after the other from the first
    when the reduced axis is not the contiguous one, pairwise when it
    is), so the sum of a list of scalars is taken as numpy gives it. *)

Class Numpy (F : Type) : Type := {
  list_subscript_is_tuple : bool;
  add_reduce : list F -> F
}.

(** ** Arrays

    A numpy array is a flat buffer in row-major order with a shape.  The
    constructor receives an array of any number of axes; the samples of a
    cube have three. *)

Record ndarray (A : Type) : Type := mk_ndarray {
  shape : list nat;
  buf : list A
}.
Arguments mk_ndarray {A} shape buf.
Arguments shape {A} n.
Arguments buf {A} n.

Record array3 (A : Type) : Type := mk_array3 {
  shape3 : triple nat;
  buf3 : list A
}.
Arguments mk_array3 {A} shape3 buf3.
Arguments shape3 {A} a.
Arguments buf3 {A} a.

Definition size3 (sh : triple nat) : nat :=
  let '(s0, s1, s2) := sh in (s0 * s1 * s2)%nat.

Definition wf3 {A : Type} (a : array3 A) : Prop :=
  length (buf3 a) = size3 (shape3 a).

Definition ravel_index (idx sh : triple nat) : nat :=
  let '(i, j, k) := idx in
  let '(_, s1, s2) := sh in ((i * s1 + j) * s2 + k)%nat.

(** [np.unravel_index] on a position inside the array. *)
Definition unravel_index (p : nat) (sh : triple nat) : triple nat :=
  let '(_, s1, s2) := sh in
  ((p / (s1 * s2))%nat, ((p / s2) mod s1)%nat, (p mod s2)%nat).

Definition in_shape (idx sh : triple nat) : bool :=
  let '(i, j, k) := idx in
  let '(s0, s1, s2) := sh in
  (i <? s0)%nat && (j <? s1)%nat && (k <? s2)%nat.

(** [a[i, j, k]], for an index inside the array. *)
Definition get3 {A : Type} (a : array3 A) (idx : triple nat) : option A :=
  if in_shape idx (shape3 a) then buf3 a !! ravel_index idx (shape3 a)
  else None.

(** *** Slices *)

Record slice : Type := mk_slice { start : Z; stop : Z }.

(** Python's [slice.indices] for a step of one: a negative bound counts
    from the end, and both bounds are clipped to the length. *)
Definition adjust_index (i : Z) (len : nat) : nat :=
  Z.to_nat (if i <? 0 then Z.max 0 (i + Z.of_nat len)
            else Z.min i (Z.of_nat len)).

(** First position and number of positions a slice selects on an axis. *)
Definition slice_range (s : slice) (len : nat) : nat * nat :=
  let b := adjust_index (start s) len in
  let e := adjust_index (stop s) len in
  (b, (e - b)%nat).

Definition ranges3 (sl : triple slice) (sh : triple nat) : triple (nat * nat) :=
  zip3 slice_range sl sh.

Definition in_ranges (idx : triple nat) (r : triple (nat * nat)) : bool :=
  let '(i, j, k) := idx in
  let '((b0, n0), (b1, n1), (b2, n2)) := r in
  ((b0 <=? i) && (i <? b0 + n0) && (b1 <=? j) && (j <? b1 + n1)
   && (b2 <=? k) && (k <? b2 + n2))%nat.

Section arrays.
Context {F : Type} `{!Dtype F} `{!Numpy F}.

(** [a[s0, s1, s2]]: the selected block, as an array of its own. *)
Definition getitem3 (a : array3 F) (sl : triple slice) : array3 F :=
  let '((b0, n0), (b1, n1), (b2, n2)) := ranges3 sl (shape3 a) in
  let sh := (n0, n1, n2) in
  mk_array3 sh
    ((fun p => let '(i, j, k) := unravel_index p sh in
               default zero (get3 a ((b0 + i)%nat, (b1 + j)%nat, (b2 + k)%nat)))
       <$> seq 0 (size3 sh)).

(** numpy broadcasting of an operand axis of length [n] against a
    result axis of length [m]: equal lengths pair up, a length of one
    is repeated, anything else is refused. *)
Definition broadcastable (n m : nat) : bool :=
  (n =? m)%nat || (n =? 1)%nat.

Definition broadcast_index (n m i : nat) : nat :=
  if (n =? m)%nat then i else 0%nat.

(** [a[l]] for the list [l] of three slices: the block [a[s0, s1, s2]]
    where numpy reads the list as a tuple, [IndexError] where it does
    not. *)
Definition list_subscript (a : array3 F) (sl : triple slice)
  : result (array3 F) :=
  if list_subscript_is_tuple then Return (getitem3 a sl)
  else Raise IndexError.

(** The addition in place [blk += b] on the block [blk] that the three
    slices select in [a]: [ValueError] when the shape of [b] does not
    broadcast to the shape of the block. *)
Definition iadd3 (a : array3 F) (sl : triple slice) (b : array3 F)
  : result (array3 F) :=
  let r := ranges3 sl (shape3 a) in
  let '((b0, n0), (b1, n1), (b2, n2)) := r in
  let '(m0, m1, m2) := shape3 b in
  if broadcastable m0 n0 && broadcastable m1 n1 && broadcastable m2 n2 then
    Return (mk_array3 (shape3 a)
      (imap (fun p x =>
               let '(i, j, k) := unravel_index p (shape3 a) in
               if in_ranges (i, j, k) r then
                 add x (default zero (get3 b
                   (broadcast_index m0 n0 (i - b0),
                    broadcast_index m1 n1 (j - b1),
                    broadcast_index m2 n2 (k - b2))%nat))
               else x)
            (buf3 a)))
  else Raise ValueError.

(** [np.zeros_like]. *)
Definition zeros_like (a : array3 F) : array3 F :=
  mk_array3 (shape3 a) (replicate (length (buf3 a)) zero).

Definition to_ndarray (a : array3 F) : ndarray F :=
  let '(s0, s1, s2) := shape3 a in mk_ndarray [s0; s1; s2] (buf3 a).

(** The elements added one after the other from the first; zero for no
    element.  This is the order of [np.add.reduce] when the reduced axis
    is not the contiguous one. *)
Definition reduce_add (l : list F) : F :=
  match l with
  | [] => zero
  | x :: t => fold_left add t x
  end.

(** [data.sum(axis=0)] on a buffer of [s] blocks of [n] elements. *)
Definition sum_axis0 (s n : nat) (b : list F) : list F :=
  (fun p => add_reduce ((fun q => default zero (b !! (q * n + p)%nat))
                          <$> seq 0 s))
    <$> seq 0 n.

(** [np.argmax] / [np.argmin] of a flat buffer: the first position of
    an extreme element, [ValueError] on an empty buffer. *)
Fixpoint arg_best (better : F -> F -> bool) (best_i : nat) (best : F)
    (i : nat) (l : list F) : nat :=
  match l with
  | [] => best_i
  | x :: t =>
      if better x best then arg_best better i x (S i) t
      else arg_best better best_i best (S i) t
  end.

Definition argmax (l : list F) : result nat :=
  match l with
  | [] => Raise ValueError
  | x :: t => Return (arg_best (fun y b => less b y) 0%nat x 1%nat t)
  end.

Definition argmin (l : list F) : result nat :=
  match l with
  | [] => Raise ValueError
  | x :: t => Return (arg_best (fun y b => less y b) 0%nat x 1%nat t)
  end.

(** [np.nanargmax] (numpy 1.8 and later): NaNs are replaced by minus
    infinity, [argmax] is taken, and an input that was all NaN raises
    [ValueError]. *)
Definition nanargmax (l : list F) : result nat :=
  let mask := isnan <$> l in
  let a := (fun x => if isnan x then neg_inf else x) <$> l in
  match argmax a with
  | Raise e => Raise e
  | Return res => if forallb id mask then Raise ValueError else Return res
  end.

Definition nanargmin (l : list F) : result nat :=
  let mask := isnan <$> l in
  let a := (fun x => if isnan x then pos_inf else x) <$> l in
  match argmin a with
  | Raise e => Raise e
  | Return res => if forallb id mask then Raise ValueError else Return res
  end.
End arrays.

(** ** Strings: the unit name

    [bsu.lower()] and [bsu.replace("jy","Jy")] on ASCII strings. *)

Definition ascii_lower (c : ascii) : ascii :=
  let n := nat_of_ascii c in
  if ((65 <=? n) && (n <=? 90))%nat then ascii_of_nat (n + 32) else c.

Fixpoint str_lower (s : string) : string :=
  match s with
  | EmptyString => EmptyString
  | String c t => String (ascii_lower c) (str_lower t)
  end.

Fixpoint replace_jy_Jy (s : string) : string :=
  match s with
  | EmptyString => EmptyString
  | String c t =>
      match c, t with
      | "j"%char, String "y"%char t' =>
          String "J"%char (String "y"%char (replace_jy_Jy t'))
      | _, _ => String c (replace_jy_Jy t)
      end
  end.

(** ** The FITS header and the astropy collaborators *)

Inductive hvalue (F : Type) : Type :=
| HNum (x : F)
| HStr (s : string).
Arguments HNum {F} x.
Arguments HStr {F} s.

(** What the constructor calls in astropy: the unit parser
    [u.Unit(_, format="fits")], [astrowcs.WCS] and [WCS.dropaxis].  Each
    of them may raise. *)
Class Astropy (F : Type) : Type := {
  unit_t : Type;
  wcs_t : Type;
  Unit : string -> result unit_t;
  WCS : gmap string (hvalue F) -> result wcs_t;
  dropaxis : wcs_t -> nat -> result wcs_t
}.

(** [t[m]] for the tuple [t = self.data.shape] and a numpy boolean array
    [m] of three elements.  A tuple subscript that is not a slice is
    converted to an integer through [__index__], and numpy refuses that
    conversion for an array that is not one integer: Python raises
    [TypeError] whatever the contents of [m]. *)
Definition tuple_getitem (t : triple Z) (m : triple bool) : result (list Z) :=
  Raise TypeError.

(** [a[m] = x] for a boolean mask [m] and a scalar [x]. *)
Definition setitem_mask (a : triple Z) (m : triple bool) (x : Z) : triple Z :=
  zip3 (fun (b : bool) y => if b then x else y) m a.

(** [a[m] = v] for a boolean mask [m] and a sequence [v] holding one
    value per selected position. *)
Definition setitem_mask_seq (a : triple Z) (m : triple bool) (v : list Z)
  : triple Z :=
  let '(a0, a1, a2) := a in
  let '(m0, m1, m2) := m in
  let pick (b : bool) (y : Z) (v : list Z) :=
    if b then (default y (head v), tail v) else (y, v) in
  let '(x0, v) := pick m0 a0 v in
  let '(x1, v) := pick m1 a1 v in
  let '(x2, _) := pick m2 a2 v in
  (x0, x1, x2).

(** ** The pixel grid of [get_features] *)

(** [np.arange(a, b)] on integers. *)
Definition arange (a b : Z) : list Z :=
  (fun n => a + Z.of_nat n) <$> seq 0 (Z.to_nat (b - a)).

(** [np.meshgrid(x, y, z, indexing='ij')], each of the three grids
    raveled in row-major order. *)
Definition meshgrid_ij (x y z : list Z) : triple (list Z) :=
  (x ≫= (fun xi => y ≫= (fun _ => z ≫= (fun _ => [xi]))),
   x ≫= (fun _ => y ≫= (fun yj => z ≫= (fun _ => [yj]))),
   x ≫= (fun _ => y ≫= (fun _ => z ≫= (fun zk => [zk])))).

(** The rows of [ii.T] in [get_features]: [ii[2]], [ii[1]], [ii[0]] are
    the raveled grids of the first, second and third axis. *)
Definition pixel_rows (sli : triple slice) : list (triple Z) :=
  let '(s0, s1, s2) := sli in
  let x := arange (start s0) (stop s0) in
  let y := arange (start s1) (stop s1) in
  let z := arange (start s2) (stop s2) in
  let '(xyz0, xyz1, xyz2) := meshgrid_ij x y z in
  let ii2 := xyz0 in
  let ii1 := xyz1 in
  let ii0 := xyz2 in
  zip (zip ii0 ii1) ii2.

(** ** The cube *)

Module Cube.
Section methods.
Context {F : Type} `{!Dtype F} `{!Astropy F} `{!Numpy F}.

Record t : Type := mk {
  data : array3 F;
  mask : ndarray bool;
  wcs : wcs_t;
  meta : gmap string (hvalue F);
  unit : unit_t
}.

(** [meta[key]]: [KeyError] for a keyword the header does not hold. *)
Definition header_getitem (meta : gmap string (hvalue F)) (key : string)
  : M (hvalue F) :=
  match meta !! key with
  | Some v => ret v
  | None => raise (KeyError key)
  end.

(** [bsu.lower()]: only a string has the method. *)
Definition lower_method (v : hvalue F) : M string :=
  match v with
  | HStr s => ret (str_lower s)
  | HNum _ => raise AttributeError
  end.

(** [array * v] and [array + v] for a header value [v]: numpy refuses a
    string operand. *)
Definition array_mul (l : list F) (v : hvalue F) : M (list F) :=
  match v with
  | HNum x => ret ((fun y => mul y x) <$> l)
  | HStr _ => raise TypeError
  end.

Definition array_add (l : list F) (v : hvalue F) : M (list F) :=
  match v with
  | HNum x => ret ((fun y => add y x) <$> l)
  | HStr _ => raise TypeError
  end.

(** [Cube.__init__(self, data, meta)].  [NDData.__init__] stores its
    arguments as they are given. *)
Definition __init__ (data : ndarray F) (meta : gmap string (hvalue F))
  : M t :=
  let mask := mk_ndarray (shape data) (isnan <$> buf data) in
  let* bscale := header_getitem meta "BSCALE" in
  let* bzero := header_getitem meta "BZERO" in
  let* bsu := header_getitem meta "BUNIT" in
  let* bsu := lower_method bsu in
  let bsu := replace_jy_Jy bsu in
  let* bunit := lift (Unit bsu) in
  match shape data with
  | [s; n0; n1; n2] =>
      let summed := sum_axis0 s (n0 * n1 * n2) (buf data) in
      let* scaled := array_mul summed bscale in
      let* data := array_add scaled bzero in
      let* wcs := lift (WCS meta) in
      let* wcs := lift (dropaxis wcs 3) in
      ret (mk (mk_array3 (n0, n1, n2) data) mask wcs meta bunit)
  | _ =>
      let* _ := log error_only_4D in
      raise TypeError
  end.

(** [Cube.empty_like(self)]. *)
Definition empty_like (self : t) : M t :=
  let dat := zeros_like (data self) in
  __init__ (to_ndarray dat) (meta self).

Definition shapeZ (self : t) : triple Z :=
  map3 Z.of_nat (shape3 (data self)).

(** [Cube._slice(self, lower, upper)], for [lower] and [upper] given as
    [None] or as tuples of three integers. *)
Definition _slice (self : t) (lower upper : option (triple Z))
  : M (triple slice) :=
  let sh := shapeZ self in
  let lower := default (0, 0, 0) lower in
  let upper := default sh upper in
  let llc := map3 (fun x => x <? 0) lower in
  let ulc := zip3 Z.gtb lower sh in
  let luc := map3 (fun x => x <? 0) upper in
  let uuc := zip3 Z.gtb upper sh in
  let* lower :=
    if any3 llc then
      let* _ := log (warn_negative_lower lower) in
      ret (setitem_mask lower llc 0)
    else ret lower in
  let* upper :=
    if any3 ulc then
      let* _ := log (warn_lower_out_of_bounds lower sh) in
      let* v := lift (tuple_getitem sh ulc) in
      ret (setitem_mask_seq upper ulc v)
    else ret upper in
  let* lower :=
    if any3 luc then
      let* _ := log (warn_negative_upper upper) in
      ret (setitem_mask lower luc 0)
    else ret lower in
  let* upper :=
    if any3 uuc then
      let* _ := log (warn_upper_out_of_bounds upper sh) in
      let* v := lift (tuple_getitem sh uuc) in
      ret (setitem_mask_seq upper uuc v)
    else ret upper in
  ret (zip3 mk_slice lower upper).

(** [Cube.get_slice(self, lower, upper)]. *)
Definition get_slice (self : t) (lower upper : option (triple Z))
  : M (array3 F) :=
  let* sli := _slice self lower upper in
  ret (getitem3 (data self) sli).

(** One turn of the loop of [add_flux]: the bounds [fl[i]], [fu[i]] of
    the patch on an axis where the cube has [n] cells and the patch
    [m]. *)
Definition crop (sl : slice) (n m : nat) : slice :=
  let fl := if start sl =? 0 then Z.of_nat m - stop sl else 0 in
  let fu := if stop sl =? Z.of_nat n then stop sl - start sl
            else Z.of_nat m in
  mk_slice fl fu.

(** [Cube.add_flux(self, flux, lower, upper)], for a patch of three
    axes; the cube after the call is returned.  The last line,
    [self.data[sli] += flux[...]], subscripts the samples with the list
    [sli] that [_slice] returned: the block is fetched first, then the
    cropped patch is taken and added to it in place. *)
Definition add_flux (self : t) (flux : array3 F)
    (lower upper : option (triple Z)) : M t :=
  let* sli := _slice self lower upper in
  let f := zip3 (fun sl nm => crop sl (fst nm) (snd nm)) sli
             (zip3 pair (shape3 (data self)) (shape3 flux)) in
  let* _ := lift (list_subscript (data self) sli) in
  let* data' := lift (iadd3 (data self) sli (getitem3 flux f)) in
  ret (mk data' (mask self) (wcs self) (meta self) (unit self)).

(** [Cube.max(self)] and [Cube.min(self)]. *)
Definition max (self : t) : result (F * triple nat) :=
  match nanargmax (buf3 (data self)) with
  | Raise e => Raise e
  | Return p =>
      let index := unravel_index p (shape3 (data self)) in
      match get3 (data self) index with
      | Some y => Return (y, index)
      | None => Raise IndexError
      end
  end.

Definition min (self : t) : result (F * triple nat) :=
  match nanargmin (buf3 (data self)) with
  | Raise e => Raise e
  | Return p =>
      let index := unravel_index p (shape3 (data self)) in
      match get3 (data self) index with
      | Some y => Return (y, index)
      | None => Raise IndexError
      end
  end.
(** [Cube.get_features(self, lower, upper)]; [wcs_pix2world] is the
    transform of astropy's [WCS], applied to the rows of pixel
    coordinates with origin 0. *)
Definition get_features {W : Type}
    (wcs_pix2world : wcs_t -> list (triple Z) -> result W)
    (self : t) (lower upper : option (triple Z)) : M W :=
  let* sli := _slice self lower upper in
  lift (wcs_pix2world (wcs self) (pixel_rows sli)).
End methods.
End Cube.

(** ** Predicates of the specification and the values they are stated on *)

Section statements.
Context {F : Type} `{!Dtype F} `{!Astropy F} `{!Numpy F}.
Implicit Types (self : Cube.t) (lower upper : triple Z) (i : axis).

(** Both endpoints of a range lie in [[0, n]]. *)
Definition within (sl : slice) (n : Z) : Prop :=
  0 <= start sl <= n /\ 0 <= stop sl <= n.

(** The bounds [_slice] returns when no requested bound exceeds the
    shape: [lower] with a zero wherever [lower] or [upper] is negative,
    and [upper] as it was given. *)
Definition resolved_lower lower upper : triple Z :=
  zip3 (fun l u => if (l <? 0) || (u <? 0) then 0 else l) lower upper.

Definition corrections lower upper : list log_record :=
  (if any3 (map3 (fun x => x <? 0) lower)
   then [warn_negative_lower lower] else [])
  ++ (if any3 (map3 (fun x => x <? 0) upper)
      then [warn_negative_upper upper] else []).

(** The requested bounds lie inside the cube on every axis. *)
Definition in_bounds self lower upper : Prop :=
  forall i,
    0 <= component i lower <= component i (Cube.shapeZ self)
    /\ 0 <= component i upper <= component i (Cube.shapeZ self).

(** The extents of the patch are those of the requested region. *)
Definition patch_fits (flux : array3 F) lower upper : Prop :=
  forall i,
    Z.of_nat (component i (shape3 flux))
    = component i upper - component i lower.

(** The cell [idx] of the cube lies in the half-open box from [lo] to
    [hi]. *)
Definition in_box (idx : triple nat) (lo hi : triple Z) : Prop :=
  forall i,
    component i lo <= Z.of_nat (component i idx) < component i hi.

(** The cell of the patch that the region cell [idx] is paired with
    when the patch is laid with its first cell at [lower]. *)
Definition patch_cell (idx : triple nat) lower : triple nat :=
  zip3 (fun x l => Z.to_nat (Z.of_nat x - l)) idx lower.

(** The samples the constructor stores for raw data of shape
    [[s; n0; n1; n2]]. *)
Definition collapsed (s n0 n1 n2 : nat) (b : list F) (x y : F) : array3 F :=
  mk_array3 (n0, n1, n2)
    ((fun v => add v y) <$> ((fun v => mul v x)
       <$> sum_axis0 s (n0 * n1 * n2) b)).

(** What the constructor reads in the header before it looks at the
    shape of the data. *)
Definition unit_readable (meta : gmap string (hvalue F)) : Prop :=
  exists vs vz s u,
    meta !! "BSCALE" = Some vs /\ meta !! "BZERO" = Some vz
    /\ meta !! "BUNIT" = Some (HStr s)
    /\ Unit (replace_jy_Jy (str_lower s)) = Return u.

(** A header the constructor accepts: numeric scale and offset, a unit
    that parses, a coordinate system with a fourth axis to drop. *)
Definition header_ok (meta : gmap string (hvalue F)) : Prop :=
  exists x y s u w w',
    meta !! "BSCALE" = Some (HNum x) /\ meta !! "BZERO" = Some (HNum y)
    /\ meta !! "BUNIT" = Some (HStr s)
    /\ Unit (replace_jy_Jy (str_lower s)) = Return u
    /\ WCS meta = Return w /\ dropaxis w 3 = Return w'.

(** The requests [add_flux] lays out as the specification describes, on
    an axis where the cube has [s] cells and the patch [m]: the region
    ends inside the cube, the patch has the extent of the request, and
    a request that starts below zero ends before the last cell. *)
Definition axis_ok (s m : nat) (lo up : Z) : Prop :=
  lo <= up /\ 0 <= up <= Z.of_nat s /\ (lo < 0 -> up < Z.of_nat s)
  /\ Z.of_nat m = up - lo.

Definition resolved_start (lo up : Z) : Z :=
  if (lo <? 0) || (up <? 0) then 0 else lo.
End statements.

(** ** A concrete setting

    Double-precision samples, a unit that is its name, and a coordinate
    system that is its number of axes. *)

#[export] Instance plain_astropy : Astropy float := {|
  unit_t := string;
  wcs_t := nat;
  Unit := fun s => Return s;
  WCS := fun _ => Return 4%nat;
  dropaxis := fun w n => if (n <? w)%nat then Return (w - 1)%nat
                         else Raise ValueError
|}.

(** A numpy from version 1.23 on, and one before it; both add the
    planes in order from the first (the examples have one plane). *)
#[export] Instance numpy_modern : Numpy float := {|
  list_subscript_is_tuple := false;
  add_reduce := reduce_add
|}.

Definition numpy_legacy : Numpy float := {|
  list_subscript_is_tuple := true;
  add_reduce := reduce_add
|}.

Definition casa_header : gmap string (hvalue float) :=
  <["BSCALE" := HNum 1%float]>
    (<["BZERO" := HNum 0%float]> (<["BUNIT" := HStr "JY/BEAM"]> ∅)).

(** A single polarisation plane over a cube of shape [(4, 5, 6)]. *)
Definition raw456 : ndarray float :=
  mk_ndarray [1; 4; 5; 6]%nat (replicate 120 0%float).

Definition cube456 : Cube.t :=
  Cube.mk (mk_array3 (4, 5, 6)%nat (replicate 120 0%float))
    (mk_ndarray [1; 4; 5; 6]%nat (replicate 120 false))
    3%nat casa_header "Jy/beam".

(** The test the specification names for the mask, on double-precision
    samples: a sample is non-finite when it is NaN or infinite. *)
Definition nonfinite (x : float) : bool :=
  PrimFloat.is_nan x || PrimFloat.is_infinity x.

(** Raw data of one infinite and one NaN sample. *)
Definition raw_inf : ndarray float :=
  mk_ndarray [1; 1; 1; 2]%nat [infinity; nan].

(** A cube of two samples, both NaN. *)
Definition raw_nan : ndarray float :=
  mk_ndarray [1; 1; 1; 2]%nat [nan; nan].

Definition cube_nan : Cube.t :=
  Cube.mk (mk_array3 (1, 1, 2)%nat [nan; nan])
    (mk_ndarray [1; 1; 1; 2]%nat [true; true])
    3%nat casa_header "Jy/beam".

(** A patch of two planes, three rows and one column, and a patch of
    three planes for a request that starts one plane below the cube. *)
Definition patch231 : array3 float :=
  mk_array3 (2, 3, 1)%nat
    [1%float; 2%float; 3%float; 4%float; 5%float; 6%float].

Definition patch331 : array3 float :=
  mk_array3 (3, 3, 1)%nat
    [1%float; 2%float; 3%float; 4%float; 5%float; 6%float;
     7%float; 8%float; 9%float].

(** A patch for the request from [(-1, 0, 0)] to [(4, 5, 6)]. *)
Definition patch556 : array3 float :=
  mk_array3 (5, 5, 6)%nat (replicate 150 1%float).

(** The first keyword, in the order the constructor reads them, that
    the header does not hold. *)
Definition first_missing {F : Type} (meta : gmap string (hvalue F))
  : option string :=
  List.find (fun k => match meta !! k with None => true | Some _ => false end)
    ["BSCALE"; "BZERO"; "BUNIT"].

(** Raw data of three axes. *)
Definition raw3d : ndarray float :=
  mk_ndarray [1; 1; 2]%nat [1%float; 2%float].

(** The requested region touches no face of the cube: on every axis it
    starts after the first cell and ends before the last. *)
Definition interior {F : Type} `{!Dtype F} `{!Astropy F} (self : Cube.t)
    (lower upper : triple Z) : Prop :=
  forall i,
    0 < component i lower <= component i upper
    /\ component i upper < component i (Cube.shapeZ self).

(** A patch of one cell. *)
Definition single_cell {F : Type} (v : F) : array3 F :=
  mk_array3 (1, 1, 1)%nat [v].

(** The cube holds the sample [v], which is not NaN, at [idx], and NaN
    at every other index. *)
Definition only_valid_at {F : Type} `{!Dtype F} `{!Astropy F} (self : Cube.t)
    (idx : triple nat) (v : F) : Prop :=
  get3 (Cube.data self) idx = Some v /\ isnan v = false
  /\ forall idx',
       in_shape idx' (shape3 (Cube.data self)) = true -> idx' <> idx ->
       exists x, get3 (Cube.data self) idx' = Some x /\ isnan x = true.

(** [v] lies strictly between the two infinities in the order of the
    scalars, and neither infinity is less than itself. *)
Definition between_infinities {F : Type} `{!Dtype F} (v : F) : Prop :=
  less neg_inf v = true /\ less v neg_inf = false
  /\ less neg_inf neg_inf = false
  /\ less v pos_inf = true /\ less pos_inf v = false
  /\ less pos_inf pos_inf = false.

(** [index[::-1]]: an index in the opposite axis order. *)
Definition reversed {A : Type} (t : triple A) : triple A :=
  let '(a, b, c) := t in (c, b, a).

(** A cube of shape [(1, 1, 2)] holding NaN and then 3. *)
Definition cube_one_valid : Cube.t :=
  Cube.mk (mk_array3 (1, 1, 2)%nat [nan; 3%float])
    (mk_ndarray [1; 1; 1; 2]%nat [true; false])
    3%nat casa_header "Jy/beam".



(** A patch without cells. *)
Definition patch000 : array3 float := mk_array3 (0, 0, 0)%nat [].

(** * Properties *)

(** ** The monad of log records and exceptions *)

Section monad.
Context {A B : Type}.

Lemma bind_ret (a : A) (k : A -> M B) : bind (ret a) k = k a.
Proof. unfold bind, ret. destruct (k a). reflexivity. Qed.

Lemma bind_lift_Return (a : A) (k : A -> M B) :
  bind (lift (Return a)) k = k a.
Proof. apply bind_ret. Qed.

Lemma bind_pair (l : list log_record) (a : A) (k : A -> M B) :
  bind (l, Return a) k = (l ++ fst (k a), snd (k a)).
Proof. unfold bind. destruct (k a). reflexivity. Qed.
End monad.

(** ** Region resolution *)

Section region.
Context {F : Type} `{!Dtype F} `{!Astropy F} `{!Numpy F}.
Implicit Types (self : Cube.t) (lower upper : triple Z) (i : axis).

Lemma component_zip3 {A B C : Type} (f : A -> B -> C) (s : triple A)
    (u : triple B) i :
  component i (zip3 f s u) = f (component i s) (component i u).
Proof. destruct s as [[? ?] ?], u as [[? ?] ?], i; reflexivity. Qed.

Lemma component_map3 {A B : Type} (f : A -> B) (s : triple A) i :
  component i (map3 f s) = f (component i s).
Proof. destruct s as [[? ?] ?], i; reflexivity. Qed.

Lemma any3_false (m : triple bool) :
  any3 m = false <-> forall i, component i m = false.
Proof.
  destruct m as [[a b] c]; simpl; split.
  - intros H i.
    destruct a, b, c, i; simpl in *; congruence.
  - intros H.
    rewrite (H ax0 : a = false), (H ax1 : b = false), (H ax2 : c = false).
    reflexivity.
Qed.

Lemma any3_lt0_false lower :
  (forall i, 0 <= component i lower) ->
  any3 (map3 (fun x => x <? 0) lower) = false.
Proof.
  intros H. apply any3_false. intros i.
  rewrite component_map3. apply Z.ltb_ge, H.
Qed.

Lemma any3_gt_false lower (sh : triple Z) :
  (forall i, component i lower <= component i sh) ->
  any3 (zip3 Z.gtb lower sh) = false.
Proof.
  intros H. apply any3_false. intros i.
  rewrite component_zip3, Z.gtb_ltb. apply Z.ltb_ge, H.
Qed.

Lemma _slice_below_shape self lower upper :
  (forall i, component i lower <= component i (Cube.shapeZ self)) ->
  (forall i, component i upper <= component i (Cube.shapeZ self)) ->
  Cube._slice self (Some lower) (Some upper)
  = (corrections lower upper,
     Return (zip3 mk_slice (resolved_lower lower upper) upper)).
Proof.
  intros Hl Hu.
  unfold Cube._slice, corrections, resolved_lower; simpl default.
  rewrite (any3_gt_false _ _ Hl), (any3_gt_false _ _ Hu).
  destruct lower as [[l0 l1] l2], upper as [[u0 u1] u2].
  destruct (any3 (map3 (fun x => x <? 0) (l0, l1, l2))) eqn:El;
    destruct (any3 (map3 (fun x => x <? 0) (u0, u1, u2))) eqn:Eu;
    simpl in El, Eu |- *.
  - repeat f_equal;
      destruct (l0 <? 0), (l1 <? 0), (l2 <? 0), (u0 <? 0), (u1 <? 0),
        (u2 <? 0); reflexivity.
  - apply orb_false_elim in Eu as [Eu ->].
    apply orb_false_elim in Eu as [-> ->].
    rewrite !orb_false_r. reflexivity.
  - apply orb_false_elim in El as [El ->].
    apply orb_false_elim in El as [-> ->].
    reflexivity.
  - apply orb_false_elim in Eu as [Eu ->].
    apply orb_false_elim in Eu as [-> ->].
    apply orb_false_elim in El as [El ->].
    apply orb_false_elim in El as [-> ->].
    reflexivity.
Qed.

(** A requested bound above the shape, lower or upper, ends the call in
    the subscript [self.data.shape[mask]]. *)
Lemma _slice_above_shape self lower upper i :
  component i (Cube.shapeZ self) < component i lower
  \/ component i (Cube.shapeZ self) < component i upper ->
  exists l, Cube._slice self (Some lower) (Some upper) = (l, Raise TypeError).
Proof.
  intros H.
  unfold Cube._slice; simpl default.
  set (sh := Cube.shapeZ self) in *.
  destruct (any3 (zip3 Z.gtb lower sh)) eqn:El.
  - destruct (any3 (map3 (fun x => x <? 0) lower)); simpl; eauto.
  - destruct (any3 (zip3 Z.gtb upper sh)) eqn:Eu.
    + destruct (any3 (map3 (fun x => x <? 0) lower)),
        (any3 (map3 (fun x => x <? 0) upper)); simpl; eauto.
    + exfalso.
      pose proof (proj1 (any3_false _) El i) as Hl.
      pose proof (proj1 (any3_false _) Eu i) as Hu.
      rewrite component_zip3, Z.gtb_ltb in Hl, Hu.
      apply Z.ltb_ge in Hl, Hu. lia.
Qed.

(** A negative lower bound is set to zero, with its warning, whenever the
    call returns. *)
Lemma _slice_negative_lower_zeroed self lower upper i :
  (forall j, component j lower <= component j (Cube.shapeZ self)) ->
  (forall j, component j upper <= component j (Cube.shapeZ self)) ->
  component i lower < 0 ->
  exists l sl,
    Cube._slice self (Some lower) (Some upper) = (l, Return sl)
    /\ start (component i sl) = 0
    /\ warn_negative_lower lower ∈ l.
Proof.
  intros Hl Hu Hneg. rewrite (_slice_below_shape self lower upper Hl Hu).
  eexists _, _. split; [reflexivity |]. split.
  - unfold resolved_lower. rewrite !component_zip3. simpl.
    replace (component i lower <? 0) with true
      by (symmetry; apply Z.ltb_lt; exact Hneg).
    reflexivity.
  - unfold corrections.
    replace (any3 (map3 (fun x => x <? 0) lower)) with true.
    + apply elem_of_app. left. apply list_elem_of_singleton. reflexivity.
    + symmetry. apply not_false_iff_true. intros Hf.
      pose proof (proj1 (any3_false _) Hf i) as Hi.
      rewrite component_map3 in Hi. apply Z.ltb_ge in Hi. lia.
Qed.

(** C6. On bounds that lie inside the cube on every axis, [_slice]
    returns the requested [lower] and [upper] unchanged and writes no
    correction warning. *)
Theorem slice_in_bounds_identity self lower upper :
  in_bounds self lower upper ->
  Cube._slice self (Some lower) (Some upper)
  = ([], Return (zip3 mk_slice lower upper)).
Proof.
  intros H.
  rewrite _slice_below_shape by (intros i; destruct (H i); lia).
  unfold corrections, resolved_lower.
  rewrite !any3_lt0_false by (intros i; destruct (H i); lia).
  do 3 f_equal.
  destruct lower as [[l0 l1] l2], upper as [[u0 u1] u2].
  pose proof (H ax0) as H0. pose proof (H ax1) as H1.
  pose proof (H ax2) as H2. simpl in H0, H1, H2 |- *.
  repeat match goal with
         | |- context [?a <? 0] =>
             replace (a <? 0) with false by (symmetry; apply Z.ltb_ge; lia)
         end.
  reflexivity.
Qed.
End region.

Lemma cube456_constructed :
  Cube.__init__ raw456 casa_header = ([], Return cube456).
Proof. vm_compute. reflexivity. Qed.

(** Witness of C6: the region from [(1, 2, 3)] to [(3, 5, 4)] of the cube
    of shape [(4, 5, 6)]. *)
Lemma slice_in_bounds_identity_witness :
  in_bounds cube456 (1, 2, 3) (3, 5, 4)
  /\ Cube._slice cube456 (Some (1, 2, 3)) (Some (3, 5, 4))
     = ([], Return (mk_slice 1 3, mk_slice 2 5, mk_slice 3 4)).
Proof.
  assert (H : in_bounds cube456 (1, 2, 3) (3, 5, 4))
    by (intros []; cbn; lia).
  split; [exact H |].
  exact (slice_in_bounds_identity cube456 (1, 2, 3) (3, 5, 4) H).
Defined.

(** C1. Lines 77 to 82 of [_slice] do not set what the specification
    says: a negative upper bound is left as it is (the zero is written to
    [lower]).  On the cube of shape [(4, 5, 6)], the request
    [lower = (0, 0, 0)], [upper = (-1, 5, 6)] logs the negative-upper
    correction and returns an upper bound of [-1] on the first axis. *)
Theorem slice_negative_upper_kept :
  Cube._slice cube456 (Some (0, 0, 0)) (Some (-1, 5, 6))
  = ([warn_negative_upper (-1, 5, 6)],
     Return (mk_slice 0 (-1), mk_slice 0 5, mk_slice 0 6)).
Proof. vm_compute. reflexivity. Qed.

(** C2. The ranges [_slice] returns are not always inside
    [[0, shape[i]]]: for [upper = (-1, 5, 6)] on the cube of shape
    [(4, 5, 6)] the call returns, and the range of the first axis ends at
    a negative position. *)
Theorem slice_range_outside_shape :
  exists l sl,
    Cube._slice cube456 (Some (0, 0, 0)) (Some (-1, 5, 6)) = (l, Return sl)
    /\ ~ (forall i, within (component i sl)
                      (component i (Cube.shapeZ cube456))).
Proof.
  eexists _, _. split; [vm_compute; reflexivity |].
  intros H. destruct (H ax0) as [_ [Hs _]]. cbn in Hs. lia.
Qed.

(** C5. The scenario of the specification does not return: on the cube
    of shape [(4, 5, 6)], [_slice] with [lower = (-1, 0, 0)] and
    [upper = (100, 100, 100)] logs its two corrections and then raises
    [TypeError] in [upper[uuc] = self.data.shape[uuc]]. *)
Theorem slice_scenario_raises :
  Cube._slice cube456 (Some (-1, 0, 0)) (Some (100, 100, 100))
  = ([warn_negative_lower (-1, 0, 0);
      warn_upper_out_of_bounds (100, 100, 100) (4, 5, 6)],
     Raise TypeError).
Proof. vm_compute. reflexivity. Qed.

(** ** Construction *)

Section construction.
Context {F : Type} `{!Dtype F} `{!Astropy F} `{!Numpy F}.
Implicit Types (data : ndarray F) (meta : gmap string (hvalue F)).


Lemma init_not_4D data meta :
  unit_readable meta -> length (shape data) <> 4%nat ->
  Cube.__init__ data meta = ([error_only_4D], Raise TypeError).
Proof.
  intros (vs & vz & s & u & H1 & H2 & H3 & H4) Hn.
  unfold Cube.__init__, Cube.header_getitem.
  rewrite H1, bind_ret, H2, bind_ret, H3, bind_ret.
  unfold Cube.lower_method. rewrite bind_ret, H4, bind_lift_Return.
  destruct (shape data) as [| ? [| ? [| ? [| ? [| ? ?]]]]];
    try reflexivity.
  simpl in Hn. lia.
Qed.

Lemma init_4D data meta s n0 n1 n2 x y b u w w' :
  meta !! "BSCALE" = Some (HNum x) -> meta !! "BZERO" = Some (HNum y) ->
  meta !! "BUNIT" = Some (HStr b) ->
  Unit (replace_jy_Jy (str_lower b)) = Return u ->
  WCS meta = Return w -> dropaxis w 3 = Return w' ->
  shape data = [s; n0; n1; n2] ->
  Cube.__init__ data meta
  = ([], Return (Cube.mk (collapsed s n0 n1 n2 (buf data) x y)
                   (mk_ndarray (shape data) (isnan <$> buf data))
                   w' meta u)).
Proof.
  intros H1 H2 H3 H4 H5 H6 Hs.
  unfold Cube.__init__, Cube.header_getitem.
  rewrite H1, bind_ret, H2, bind_ret, H3, bind_ret.
  unfold Cube.lower_method. rewrite bind_ret, H4, bind_lift_Return.
  rewrite Hs. unfold Cube.array_mul, Cube.array_add.
  rewrite !bind_ret, H5, bind_lift_Return, H6, bind_lift_Return.
  reflexivity.
Qed.

(** A construction that returns went through every step. *)
Lemma init_Return data meta l c :
  Cube.__init__ data meta = (l, Return c) ->
  exists s n0 n1 n2 x y b u w w',
    meta !! "BSCALE" = Some (HNum x) /\ meta !! "BZERO" = Some (HNum y)
    /\ meta !! "BUNIT" = Some (HStr b)
    /\ Unit (replace_jy_Jy (str_lower b)) = Return u
    /\ WCS meta = Return w /\ dropaxis w 3 = Return w'
    /\ shape data = [s; n0; n1; n2]
    /\ l = []
    /\ c = Cube.mk (collapsed s n0 n1 n2 (buf data) x y)
             (mk_ndarray (shape data) (isnan <$> buf data)) w' meta u.
Proof.
  unfold Cube.__init__, Cube.header_getitem.
  destruct (meta !! "BSCALE") as [vs |] eqn:H1; [| discriminate].
  destruct (meta !! "BZERO") as [vz |] eqn:H2; [| discriminate].
  destruct (meta !! "BUNIT") as [vu |] eqn:H3; [| discriminate].
  rewrite !bind_ret.
  destruct vu as [? | b]; [discriminate |].
  unfold Cube.lower_method. rewrite bind_ret.
  destruct (Unit (replace_jy_Jy (str_lower b))) as [u | ?] eqn:H4;
    [| discriminate].
  rewrite bind_lift_Return.
  destruct (shape data) as [| s [| n0 [| n1 [| n2 [| ? ?]]]]] eqn:Hs;
    try discriminate.
  destruct vs as [x | ?]; [| discriminate].
  unfold Cube.array_mul at 1. rewrite bind_ret.
  destruct vz as [y | ?]; [| discriminate].
  unfold Cube.array_add at 1. rewrite bind_ret.
  destruct (WCS meta) as [w | ?] eqn:H5; [| discriminate].
  rewrite bind_lift_Return.
  destruct (dropaxis w 3) as [w' | ?] eqn:H6; [| discriminate].
  rewrite bind_lift_Return.
  intros [= <- <-].
  exists s, n0, n1, n2, x, y, b, u, w, w'. auto 10.
Qed.

(** The samples of a constructed cube fill their shape. *)
Lemma init_wf3 data meta l (c : Cube.t) :
  Cube.__init__ data meta = (l, Return c) -> wf3 (Cube.data c).
Proof.
  intros H. apply init_Return in H
    as (s & n0 & n1 & n2 & x & y & b & u & w & w' & _ & _ & _ & _ & _
        & _ & _ & _ & ->).
  unfold wf3, collapsed, sum_axis0. cbn [Cube.data buf3 shape3 size3].
  rewrite !length_fmap, length_seq. reflexivity.
Qed.

(** C3. [empty_like] never returns: it hands the three-dimensional
    zero array to the constructor, which accepts four dimensions only,
    so on every constructed cube the call logs the dimension error and
    raises [TypeError]. *)
Theorem empty_like_raises data meta l (c : Cube.t) :
  Cube.__init__ data meta = (l, Return c) ->
  Cube.empty_like c = ([error_only_4D], Raise TypeError).
Proof.
  intros H. apply init_Return in H
    as (s & n0 & n1 & n2 & x & y & b & u & w & w' & H1 & H2 & H3 & H4 & _
        & _ & _ & _ & ->).
  unfold Cube.empty_like. apply init_not_4D.
  - exists (HNum x), (HNum y), b, u. auto.
  - simpl. lia.
Qed.

(** C4, as amended. On every constructed cube the mask holds, element
    by element, the NaN test ([np.isnan], which does not flag an
    infinity) of the raw four-dimensional input, taken before scale and
    offset are applied; the samples have three axes, those of the input
    after the first. *)
Theorem mask_is_nan_test_of_raw data meta l (c : Cube.t) :
  Cube.__init__ data meta = (l, Return c) ->
  buf (Cube.mask c) = isnan <$> buf data
  /\ exists s, shape data = s :: shape (to_ndarray (Cube.data c)).
Proof.
  intros H. apply init_Return in H
    as (s & n0 & n1 & n2 & x & y & b & u & w & w' & _ & _ & _ & _ & _
        & _ & Hs & _ & ->).
  split; [reflexivity |]. exists s. rewrite Hs. reflexivity.
Qed.

End construction.

Lemma cube_nan_constructed :
  Cube.__init__ raw_nan casa_header = ([], Return cube_nan).
Proof. vm_compute. reflexivity. Qed.


(** Witness of C3: the cube of shape [(4, 5, 6)]. *)
Lemma empty_like_raises_witness :
  Cube.__init__ raw456 casa_header = ([], Return cube456)
  /\ Cube.empty_like cube456 = ([error_only_4D], Raise TypeError).
Proof.
  assert (H : Cube.__init__ raw456 casa_header = ([], Return cube456))
    by (vm_compute; reflexivity).
  split; [exact H |].
  exact (empty_like_raises raw456 casa_header [] cube456 H).
Defined.

(** Counterexample of C4: on the cube built from one infinite and one
    NaN sample, the mask does not flag the infinite sample, which the
    non-finite test does. *)
Lemma mask_not_nonfinite_test :
  exists c,
    Cube.__init__ raw_inf casa_header = ([], Return c)
    /\ buf (Cube.mask c) = [false; true]
    /\ nonfinite <$> buf raw_inf = [true; true]
    /\ buf (Cube.mask c) <> nonfinite <$> buf raw_inf.
Proof.
  eexists. split; [vm_compute; reflexivity |].
  repeat (split; [reflexivity |]).
  intros H. discriminate H.
Qed.

(** Witness of C4 as amended. *)
Lemma mask_is_nan_test_of_raw_witness :
  Cube.__init__ raw_nan casa_header = ([], Return cube_nan)
  /\ buf (Cube.mask cube_nan) = [true; true]
  /\ exists s, shape raw_nan = s :: shape (to_ndarray (Cube.data cube_nan)).
Proof.
  assert (H : Cube.__init__ raw_nan casa_header = ([], Return cube_nan))
    by (vm_compute; reflexivity).
  split; [exact H |].
  exact (mask_is_nan_test_of_raw raw_nan casa_header [] cube_nan H).
Defined.

(** The NaN test does not flag an infinite sample. *)
Lemma float64_isnan_infinity :
  isnan (pos_inf : float) = false /\ isnan (nan : float) = true.
Proof. split; reflexivity. Qed.



(** ** Extrema *)

Section extrema.
Context {F : Type} `{!Dtype F} `{!Astropy F} `{!Numpy F}.

Lemma forallb_isnan (l : list F) :
  Forall (fun x => isnan x = true) l -> forallb id (isnan <$> l) = true.
Proof.
  induction 1 as [| x l Hx _ IH]; [reflexivity |].
  simpl. rewrite Hx. exact IH.
Qed.

Lemma nanargmax_all_nan (l : list F) :
  Forall (fun x => isnan x = true) l -> nanargmax l = Raise ValueError.
Proof.
  intros H. unfold nanargmax. rewrite (forallb_isnan l H).
  destruct l; reflexivity.
Qed.

Lemma nanargmin_all_nan (l : list F) :
  Forall (fun x => isnan x = true) l -> nanargmin l = Raise ValueError.
Proof.
  intros H. unfold nanargmin. rewrite (forallb_isnan l H).
  destruct l; reflexivity.
Qed.

(** C10. On a cube whose samples are all NaN, [max] and [min] raise
    [ValueError]; they return no value and no index.  Both are
    functions of the cube that build no new cube: the cube the caller
    holds is the one it passed. *)
Theorem extrema_all_nan_raise (self : Cube.t) :
  Forall (fun x => isnan x = true) (buf3 (Cube.data self)) ->
  Cube.max self = Raise ValueError /\ Cube.min self = Raise ValueError.
Proof.
  intros H. unfold Cube.max, Cube.min.
  rewrite (nanargmax_all_nan _ H), (nanargmin_all_nan _ H).
  split; reflexivity.
Qed.
End extrema.

(** Witness of C10: the cube of two NaN samples. *)
Lemma extrema_all_nan_raise_witness :
  Forall (fun x => isnan x = true) (buf3 (Cube.data cube_nan))
  /\ Cube.max cube_nan = Raise ValueError
  /\ Cube.min cube_nan = Raise ValueError.
Proof.
  assert (H : Forall (fun x => isnan x = true) (buf3 (Cube.data cube_nan)))
    by (repeat constructor).
  split; [exact H |].
  exact (extrema_all_nan_raise cube_nan H).
Defined.

(** ** Indexing *)

Section indexing.
Context {F : Type} `{!Dtype F}.
Implicit Types (a b : array3 F) (idx sh : triple nat).

Lemma unravel_ravel idx sh :
  in_shape idx sh = true -> unravel_index (ravel_index idx sh) sh = idx.
Proof.
  destruct idx as [[i j] k], sh as [[s0 s1] s2]. simpl.
  rewrite !andb_true_iff, !Nat.ltb_lt. intros [[_ Hj] Hk].
  assert (E : (((i * s1 + j) * s2 + k) / s2 = i * s1 + j)%nat).
  { symmetry. apply (Nat.div_unique _ _ _ k); [lia | nia]. }
  rewrite E. f_equal; [f_equal |].
  - symmetry. apply (Nat.div_unique _ _ _ (j * s2 + k)%nat); nia.
  - symmetry. apply (Nat.mod_unique _ _ i); [lia | nia].
  - symmetry. apply (Nat.mod_unique _ _ (i * s1 + j)%nat); [lia | nia].
Qed.

Lemma ravel_lt idx sh :
  in_shape idx sh = true -> (ravel_index idx sh < size3 sh)%nat.
Proof.
  destruct idx as [[i j] k], sh as [[s0 s1] s2]. simpl.
  rewrite !andb_true_iff, !Nat.ltb_lt. intros [[Hi Hj] Hk].
  assert (H1 : (i * s1 + j + 1 <= s0 * s1)%nat) by nia.
  pose proof (Nat.mul_le_mono_r _ _ s2 H1) as H2. nia.
Qed.

Lemma get3_Some a idx :
  wf3 a -> in_shape idx (shape3 a) = true -> is_Some (get3 a idx).
Proof.
  intros Hwf Hin. unfold get3. rewrite Hin.
  apply lookup_lt_is_Some. rewrite Hwf. now apply ravel_lt.
Qed.

Lemma get3_outside a idx :
  in_shape idx (shape3 a) = false -> get3 a idx = None.
Proof. intros H. unfold get3. now rewrite H. Qed.

Lemma shape3_getitem3 a (sl : triple slice) :
  shape3 (getitem3 a sl) = map3 snd (ranges3 sl (shape3 a)).
Proof.
  unfold getitem3.
  destruct (ranges3 sl (shape3 a)) as [[[b0 n0] [b1 n1]] [b2 n2]].
  reflexivity.
Qed.

(** A cell of the selected block is the cell of the array at the same
    offset from the first selected position. *)
Lemma get3_getitem3 a (sl : triple slice) idx :
  let r := ranges3 sl (shape3 a) in
  in_shape idx (map3 snd r) = true ->
  shape3 (getitem3 a sl) = map3 snd r
  /\ get3 (getitem3 a sl) idx
     = Some (default zero (get3 a (zip3 (fun x y => (fst x + y)%nat) r idx))).
Proof.
  unfold getitem3. cbv zeta.
  destruct (ranges3 sl (shape3 a)) as [[[b0 n0] [b1 n1]] [b2 n2]].
  cbn [map3 snd]. intros Hin. split; [reflexivity |].
  unfold get3 at 1. cbn [shape3 buf3]. rewrite Hin.
  rewrite list_lookup_fmap, lookup_seq_lt
    by (apply (ravel_lt idx (n0, n1, n2)), Hin).
  cbn [fmap option_fmap option_map Nat.add].
  rewrite (unravel_ravel idx (n0, n1, n2) Hin).
  destruct idx as [[i j] k]. reflexivity.
Qed.

Lemma shape3_iadd3 a (sl : triple slice) b a' :
  iadd3 a sl b = Return a' -> shape3 a' = shape3 a.
Proof.
  unfold iadd3.
  destruct (ranges3 sl (shape3 a)) as [[[b0 n0] [b1 n1]] [b2 n2]].
  destruct (shape3 b) as [[m0 m1] m2].
  destruct (broadcastable m0 n0 && broadcastable m1 n1
            && broadcastable m2 n2); [| discriminate].
  now intros [= <-].
Qed.

(** The cells of an array after an addition in place. *)
Lemma get3_iadd3 a (sl : triple slice) b a' idx :
  iadd3 a sl b = Return a' ->
  in_shape idx (shape3 a) = true ->
  let r := ranges3 sl (shape3 a) in
  shape3 a' = shape3 a
  /\ get3 a' idx
     = (fun x =>
          if in_ranges idx r then
            add x (default zero (get3 b
              (zip3 (fun nm i => broadcast_index (fst nm) (snd nm) i)
                 (zip3 pair (shape3 b) (map3 snd r))
                 (zip3 (fun i x => (i - fst x)%nat) idx r))))
          else x) <$> get3 a idx.
Proof.
  unfold iadd3. cbv zeta.
  destruct (ranges3 sl (shape3 a)) as [[[b0 n0] [b1 n1]] [b2 n2]] eqn:Er.
  destruct (shape3 b) as [[m0 m1] m2] eqn:Eb.
  destruct (broadcastable m0 n0 && broadcastable m1 n1
            && broadcastable m2 n2); [| discriminate].
  intros [= <-] Hin. split; [reflexivity |].
  assert (get3 a idx = buf3 a !! ravel_index idx (shape3 a)) as ->
    by (unfold get3; now rewrite Hin).
  unfold get3 at 1. cbn [shape3 buf3]. rewrite Hin, list_lookup_imap.
  destruct (buf3 a !! ravel_index idx (shape3 a)) as [x |]; [| reflexivity].
  cbn [fmap option_fmap option_map].
  rewrite (unravel_ravel idx (shape3 a) Hin).
  destruct idx as [[i j] k]. reflexivity.
Qed.
End indexing.

(** ** Flux accumulation *)

Section accumulation.
Context {F : Type} `{!Dtype F} `{!Astropy F} `{!Numpy F}.
Implicit Types (self : Cube.t) (flux : array3 F) (lower upper : triple Z).

Lemma resolved_start_max s m lo up :
  axis_ok s m lo up -> resolved_start lo up = Z.max lo 0.
Proof.
  intros (H1 & H2 & H3 & H4). unfold resolved_start.
  destruct (Z.ltb_spec lo 0), (Z.ltb_spec up 0); simpl; lia.
Qed.

Lemma slice_range_region s m lo up :
  axis_ok s m lo up ->
  slice_range (mk_slice (Z.max lo 0) up) s
  = (Z.to_nat (Z.max lo 0), Z.to_nat (up - Z.max lo 0)).
Proof.
  intros (H1 & H2 & H3 & H4).
  unfold slice_range, adjust_index. simpl.
  destruct (Z.ltb_spec (Z.max lo 0) 0), (Z.ltb_spec up 0); try lia.
  f_equal; lia.
Qed.

Lemma slice_range_crop s m lo up :
  axis_ok s m lo up ->
  slice_range (Cube.crop (mk_slice (Z.max lo 0) up) s m) m
  = (Z.to_nat (Z.max lo 0 - lo), Z.to_nat (up - Z.max lo 0)).
Proof.
  intros (H1 & H2 & H3 & H4).
  unfold slice_range, adjust_index, Cube.crop. simpl.
  destruct (Z.eqb_spec (Z.max lo 0) 0), (Z.eqb_spec up (Z.of_nat s));
    repeat match goal with
           | |- context [?a <? 0] => destruct (Z.ltb_spec a 0)
           end; try lia; f_equal; lia.
Qed.

(** The list subscript of [add_flux], by the numpy in use. *)
Lemma list_subscript_tuple {B : Type} (a : array3 F) (sl : triple slice)
    (k : array3 F -> M B) :
  list_subscript_is_tuple = true ->
  bind (lift (list_subscript a sl)) k = k (getitem3 a sl).
Proof. intros H. unfold list_subscript. rewrite H. apply bind_lift_Return. Qed.

Lemma list_subscript_refused {B : Type} (a : array3 F) (sl : triple slice)
    (k : array3 F -> M B) :
  list_subscript_is_tuple = false ->
  bind (lift (list_subscript a sl)) k = ([], Raise IndexError).
Proof. intros H. unfold list_subscript. rewrite H. reflexivity. Qed.

(** Where numpy refuses a list of slices as a subscript, [add_flux]
    ends there whenever [_slice] has returned. *)
Lemma add_flux_list_refused self flux (lower upper : option (triple Z))
    (l : list log_record) (sli : triple slice) :
  list_subscript_is_tuple = false ->
  Cube._slice self lower upper = (l, Return sli) ->
  Cube.add_flux self flux lower upper = (l, Raise IndexError).
Proof.
  intros Hnew Hs. unfold Cube.add_flux.
  rewrite Hs, bind_pair, list_subscript_refused by exact Hnew.
  cbn [fst snd]. now rewrite app_nil_r.
Qed.

(** What [add_flux] does on such a request where numpy reads the list
    subscript as a tuple: it writes the corrections of [_slice], and
    returns the cube with the patch, laid with its first cell at
    [lower], added on the cells of the requested box that lie in the
    cube; no other cell changes. *)
Lemma add_flux_overlay self flux lower upper :
  list_subscript_is_tuple = true ->
  wf3 (Cube.data self) -> wf3 flux ->
  (forall i, axis_ok (component i (shape3 (Cube.data self)))
               (component i (shape3 flux))
               (component i lower) (component i upper)) ->
  exists c',
    Cube.add_flux self flux (Some lower) (Some upper)
    = (corrections lower upper, Return c')
    /\ shape3 (Cube.data c') = shape3 (Cube.data self)
    /\ (forall idx,
          in_shape idx (shape3 (Cube.data self)) = true ->
          in_box idx lower upper ->
          exists x v,
            get3 (Cube.data self) idx = Some x
            /\ get3 flux (patch_cell idx lower) = Some v
            /\ get3 (Cube.data c') idx = Some (add x v))
    /\ (forall idx,
          ~ in_box idx lower upper ->
          get3 (Cube.data c') idx = get3 (Cube.data self) idx).
Proof.
  intros Hleg Hwf Hwfp Hax.
  unfold Cube.add_flux.
  rewrite _slice_below_shape; cycle 1.
  { intros i. unfold Cube.shapeZ. rewrite component_map3.
    destruct (Hax i) as (? & ? & ? & ?). lia. }
  { intros i. unfold Cube.shapeZ. rewrite component_map3.
    destruct (Hax i) as (? & ? & ? & ?). lia. }
  rewrite bind_pair, list_subscript_tuple by exact Hleg.
  destruct lower as [[l0 l1] l2], upper as [[u0 u1] u2].
  destruct (shape3 (Cube.data self)) as [[s0 s1] s2] eqn:Es.
  destruct (shape3 flux) as [[m0 m1] m2] eqn:Em.
  pose proof (Hax ax0) as H0. pose proof (Hax ax1) as H1.
  pose proof (Hax ax2) as H2. cbn [component] in H0, H1, H2.
  unfold resolved_lower. cbn [zip3 fst snd].
  fold (resolved_start l0 u0). fold (resolved_start l1 u1).
  fold (resolved_start l2 u2).
  rewrite (resolved_start_max _ _ _ _ H0), (resolved_start_max _ _ _ _ H1),
    (resolved_start_max _ _ _ _ H2).
  set (sli := (mk_slice (Z.max l0 0) u0, mk_slice (Z.max l1 0) u1,
               mk_slice (Z.max l2 0) u2)).
  set (f := (Cube.crop (mk_slice (Z.max l0 0) u0) s0 m0,
             Cube.crop (mk_slice (Z.max l1 0) u1) s1 m1,
             Cube.crop (mk_slice (Z.max l2 0) u2) s2 m2)).
  assert (Er : ranges3 sli (shape3 (Cube.data self))
               = ((Z.to_nat (Z.max l0 0), Z.to_nat (u0 - Z.max l0 0)),
                  (Z.to_nat (Z.max l1 0), Z.to_nat (u1 - Z.max l1 0)),
                  (Z.to_nat (Z.max l2 0), Z.to_nat (u2 - Z.max l2 0)))).
  { rewrite Es. unfold ranges3, sli. cbn [zip3].
    now rewrite (slice_range_region _ _ _ _ H0),
      (slice_range_region _ _ _ _ H1), (slice_range_region _ _ _ _ H2). }
  assert (Ef : ranges3 f (shape3 flux)
               = ((Z.to_nat (Z.max l0 0 - l0), Z.to_nat (u0 - Z.max l0 0)),
                  (Z.to_nat (Z.max l1 0 - l1), Z.to_nat (u1 - Z.max l1 0)),
                  (Z.to_nat (Z.max l2 0 - l2), Z.to_nat (u2 - Z.max l2 0)))).
  { rewrite Em. unfold ranges3, f. cbn [zip3].
    now rewrite (slice_range_crop _ _ _ _ H0),
      (slice_range_crop _ _ _ _ H1), (slice_range_crop _ _ _ _ H2). }
  pose proof (shape3_getitem3 flux f) as Ep. rewrite Ef in Ep.
  cbn [map3 snd] in Ep.
  destruct (iadd3 (Cube.data self) sli (getitem3 flux f)) as [a' | e] eqn:Ei.
  2:{ exfalso. unfold iadd3 in Ei. rewrite Er, Ep in Ei.
      unfold broadcastable in Ei. rewrite !Nat.eqb_refl in Ei.
      discriminate. }
  eexists. split.
  { rewrite bind_lift_Return. unfold ret. cbn [fst snd].
    rewrite app_nil_r. reflexivity. }
  cbn [Cube.data].
  split; [rewrite (shape3_iadd3 _ _ _ _ Ei); exact Es |].
  assert (Hbox : forall i j k,
    in_ranges (i, j, k) (ranges3 sli (shape3 (Cube.data self))) = true
    <-> in_box (i, j, k) (l0, l1, l2) (u0, u1, u2)).
  { intros i j k. rewrite Er. unfold in_ranges, in_box.
    rewrite !andb_true_iff, !Nat.leb_le, !Nat.ltb_lt.
    destruct H0 as (? & ? & ? & ?), H1 as (? & ? & ? & ?),
      H2 as (? & ? & ? & ?).
    split.
    - intros Hr [| |]; cbn [component]; lia.
    - intros Hb. pose proof (Hb ax0). pose proof (Hb ax1).
      pose proof (Hb ax2). cbn [component] in *. lia. }
  split.
  - intros [[i j] k] Hin Hb.
    destruct (get3_iadd3 _ _ _ _ (i, j, k) Ei) as [_ Hg];
      [rewrite Es; exact Hin |].
    destruct (get3_Some (Cube.data self) (i, j, k) Hwf) as [x Hx];
      [rewrite Es; exact Hin |].
    rewrite Hx, (proj2 (Hbox i j k) Hb) in Hg.
    rewrite Er, Ep in Hg.
    cbn [fmap option_fmap option_map zip3 map3 fst snd] in Hg.
    unfold broadcast_index in Hg. rewrite !Nat.eqb_refl in Hg.
    pose proof (Hb ax0) as B0. pose proof (Hb ax1) as B1.
    pose proof (Hb ax2) as B2. cbn [component] in B0, B1, B2.
    destruct H0 as (? & ? & ? & ?), H1 as (? & ? & ? & ?),
      H2 as (? & ? & ? & ?).
    destruct (get3_getitem3 flux f
                ((i - Z.to_nat (Z.max l0 0))%nat,
                 (j - Z.to_nat (Z.max l1 0))%nat,
                 (k - Z.to_nat (Z.max l2 0))%nat)) as [_ Hp].
    { rewrite Ef. cbn [map3 snd in_shape].
      rewrite !andb_true_iff, !Nat.ltb_lt. lia. }
    rewrite Ef in Hp. cbn [zip3 fst] in Hp.
    replace (Z.to_nat (Z.max l0 0 - l0) + (i - Z.to_nat (Z.max l0 0)))%nat
      with (Z.to_nat (Z.of_nat i - l0)) in Hp by lia.
    replace (Z.to_nat (Z.max l1 0 - l1) + (j - Z.to_nat (Z.max l1 0)))%nat
      with (Z.to_nat (Z.of_nat j - l1)) in Hp by lia.
    replace (Z.to_nat (Z.max l2 0 - l2) + (k - Z.to_nat (Z.max l2 0)))%nat
      with (Z.to_nat (Z.of_nat k - l2)) in Hp by lia.
    destruct (get3_Some flux (patch_cell (i, j, k) (l0, l1, l2)) Hwfp)
      as [v Hv].
    { rewrite Em. unfold patch_cell. cbn [zip3 in_shape].
      rewrite !andb_true_iff, !Nat.ltb_lt. lia. }
    exists x, v. split; [exact Hx |]. split; [exact Hv |].
    rewrite Hg, Hp. unfold patch_cell in Hv. cbn [zip3] in Hv.
    rewrite Hv. reflexivity.
  - intros [[i j] k] Hnb.
    destruct (in_shape (i, j, k) (s0, s1, s2)) eqn:Hin.
    + destruct (get3_iadd3 _ _ _ _ (i, j, k) Ei) as [_ Hg];
        [rewrite Es; exact Hin |].
      rewrite Hg.
      destruct (in_ranges (i, j, k) (ranges3 sli (shape3 (Cube.data self))))
        eqn:Hr.
      * exfalso. apply Hnb, Hbox, Hr.
      * destruct (get3 (Cube.data self) (i, j, k)); reflexivity.
    + rewrite !get3_outside; [reflexivity | now rewrite Es |].
      rewrite (shape3_iadd3 _ _ _ _ Ei). now rewrite Es.
Qed.
Lemma in_box_in_shape self idx lower upper :
  (forall i, component i upper
             <= Z.of_nat (component i (shape3 (Cube.data self)))) ->
  in_box idx lower upper ->
  in_shape idx (shape3 (Cube.data self)) = true.
Proof.
  intros Hu Hb.
  destruct idx as [[i j] k], (shape3 (Cube.data self)) as [[s0 s1] s2].
  pose proof (Hu ax0). pose proof (Hu ax1). pose proof (Hu ax2).
  pose proof (Hb ax0). pose proof (Hb ax1). pose proof (Hb ax2).
  cbn [component in_shape] in *.
  rewrite !andb_true_iff, !Nat.ltb_lt. lia.
Qed.

(** C7. Where numpy refuses a list of slices as a subscript (version
    1.23 and later), [add_flux] on a region inside the cube adds
    nothing: [self.data[sli]] raises [IndexError], with no warning
    logged and no cube returned.  [get_slice] subscripts with
    [sli[0], sli[1], sli[2]] and does not fail there. *)
Theorem add_flux_inside_raises self flux lower upper :
  list_subscript_is_tuple = false ->
  in_bounds self lower upper ->
  Cube.add_flux self flux (Some lower) (Some upper) = ([], Raise IndexError).
Proof.
  intros Hnew Hin.
  apply (add_flux_list_refused self flux (Some lower) (Some upper) []
           (zip3 mk_slice lower upper) Hnew).
  rewrite _slice_below_shape by (intros i; destruct (Hin i); lia).
  unfold corrections, resolved_lower.
  rewrite !any3_lt0_false by (intros i; destruct (Hin i); lia).
  do 3 f_equal.
  destruct lower as [[l0 l1] l2], upper as [[u0 u1] u2].
  pose proof (Hin ax0) as H0. pose proof (Hin ax1) as H1.
  pose proof (Hin ax2) as H2. simpl in H0, H1, H2 |- *.
  repeat match goal with
         | |- context [?a <? 0] =>
             replace (a <? 0) with false by (symmetry; apply Z.ltb_ge; lia)
         end.
  reflexivity.
Qed.

(** C8. Where numpy refuses a list of slices as a subscript, a request
    that overhangs one edge of the cube by [k] cells on an axis adds
    nothing either.  Over the lower edge: the negative-lower correction
    is logged and [self.data[sli]] raises [IndexError].  Over the upper
    edge: [_slice] raises [TypeError] in [self.data.shape[uuc]]. *)
Theorem add_flux_overhang_raises self flux lower upper (a : axis) (k : Z) :
  list_subscript_is_tuple = false ->
  0 < k ->
  (forall i, i <> a ->
     0 <= component i lower <= component i upper
     /\ component i upper <= component i (Cube.shapeZ self)) ->
  (component a lower = - k ->
   0 <= component a upper <= component a (Cube.shapeZ self) ->
   Cube.add_flux self flux (Some lower) (Some upper)
   = ([warn_negative_lower lower], Raise IndexError))
  /\ (component a upper = component a (Cube.shapeZ self) + k ->
      exists l, Cube.add_flux self flux (Some lower) (Some upper)
                = (l, Raise TypeError)).
Proof.
  intros Hnew Hk Hoth. split.
  - intros Hlo Hup.
    assert (Hall : forall i,
      component i lower <= component i (Cube.shapeZ self)
      /\ 0 <= component i upper <= component i (Cube.shapeZ self)).
    { intros i. destruct (decide (i = a)) as [-> | Hne]; [lia |].
      destruct (Hoth i Hne). lia. }
    apply (add_flux_list_refused self flux (Some lower) (Some upper) _
             (zip3 mk_slice (resolved_lower lower upper) upper) Hnew).
    rewrite _slice_below_shape by (intros i; destruct (Hall i); lia).
    f_equal. unfold corrections.
    replace (any3 (map3 (fun x => x <? 0) lower)) with true.
    + rewrite any3_lt0_false by (intros i; destruct (Hall i); lia).
      reflexivity.
    + symmetry. apply not_false_iff_true. intros Hf.
      pose proof (proj1 (any3_false _) Hf a) as Ha.
      rewrite component_map3 in Ha. apply Z.ltb_ge in Ha. lia.
  - intros Hup.
    destruct (_slice_above_shape self lower upper a) as [l Hl]; [lia |].
    exists l. unfold Cube.add_flux. rewrite Hl. reflexivity.
Qed.

(** X20. Where numpy reads a list of slices as a tuple (before version
    1.23): for a region inside the cube and a patch with the extents of
    the region, [add_flux] writes no warning and returns the cube in
    which every cell of the region holds its former value plus the
    cell of the patch at the same offset from [lower], and every other
    cell holds its former value. *)
Theorem add_flux_adds_patch self flux lower upper :
  list_subscript_is_tuple = true ->
  wf3 (Cube.data self) -> wf3 flux ->
  in_bounds self lower upper -> patch_fits flux lower upper ->
  exists c',
    Cube.add_flux self flux (Some lower) (Some upper) = ([], Return c')
    /\ shape3 (Cube.data c') = shape3 (Cube.data self)
    /\ (forall idx,
          in_box idx lower upper ->
          exists x v,
            get3 (Cube.data self) idx = Some x
            /\ get3 flux (patch_cell idx lower) = Some v
            /\ get3 (Cube.data c') idx = Some (add x v))
    /\ (forall idx,
          ~ in_box idx lower upper ->
          get3 (Cube.data c') idx = get3 (Cube.data self) idx).
Proof.
  intros Hleg Hwf Hwfp Hin Hfit.
  assert (Hsh : forall i, component i (Cube.shapeZ self)
                = Z.of_nat (component i (shape3 (Cube.data self))))
    by (intros i; apply component_map3).
  destruct (add_flux_overlay self flux lower upper Hleg Hwf Hwfp)
    as (c' & Hc & Hs & Hadd & Hout).
  { intros i. destruct (Hin i) as [Hl Hu]. rewrite Hsh in Hl, Hu.
    pose proof (Hfit i). unfold axis_ok. lia. }
  exists c'. split; [| split; [exact Hs | split; [| exact Hout]]].
  - rewrite Hc. f_equal. unfold corrections.
    rewrite !any3_lt0_false by (intros i; destruct (Hin i); lia).
    reflexivity.
  - intros idx Hb. apply Hadd; [| exact Hb].
    apply (in_box_in_shape self idx lower upper); [| exact Hb].
    intros i. destruct (Hin i) as [_ Hu]. rewrite Hsh in Hu. lia.
Qed.

(** X21. Where numpy reads a list of slices as a tuple (before version
    1.23): for a region that starts [k] cells below zero on
    one axis and ends before the last cell of that axis, lies inside
    the cube on the other axes, and a patch with the extents of the
    request: [add_flux] writes the negative-lower correction and
    returns the cube in which every cell of the request that lies in
    the cube holds its former value plus the patch cell at the same
    offset from [lower] (on the clamped axis the patch cell [k]
    positions further: the trailing cells of the patch), and every
    other cell holds its former value. *)
Theorem add_flux_trailing_patch self flux lower upper (a : axis) (k : Z) :
  list_subscript_is_tuple = true ->
  wf3 (Cube.data self) -> wf3 flux -> patch_fits flux lower upper ->
  0 < k -> component a lower = - k ->
  0 <= component a upper < component a (Cube.shapeZ self) ->
  (forall i, i <> a ->
     0 <= component i lower <= component i upper
     /\ component i upper <= component i (Cube.shapeZ self)) ->
  exists c',
    Cube.add_flux self flux (Some lower) (Some upper)
    = ([warn_negative_lower lower], Return c')
    /\ shape3 (Cube.data c') = shape3 (Cube.data self)
    /\ (forall idx,
          in_box idx lower upper ->
          exists x v,
            get3 (Cube.data self) idx = Some x
            /\ get3 flux (patch_cell idx lower) = Some v
            /\ Z.of_nat (component a (patch_cell idx lower))
               = Z.of_nat (component a idx) + k
            /\ get3 (Cube.data c') idx = Some (add x v))
    /\ (forall idx,
          ~ in_box idx lower upper ->
          get3 (Cube.data c') idx = get3 (Cube.data self) idx).
Proof.
  intros Hleg Hwf Hwfp Hfit Hk Hlo Hup Hoth.
  assert (Hsh : forall i, component i (Cube.shapeZ self)
                = Z.of_nat (component i (shape3 (Cube.data self))))
    by (intros i; apply component_map3).
  assert (Hall : forall i,
    component i lower <= component i upper
    /\ 0 <= component i upper
           <= Z.of_nat (component i (shape3 (Cube.data self)))
    /\ (component i lower < 0 ->
        component i upper
        < Z.of_nat (component i (shape3 (Cube.data self))))).
  { intros i. rewrite <- Hsh.
    destruct (decide (i = a)) as [-> | Hne]; [lia |].
    destruct (Hoth i Hne). lia. }
  destruct (add_flux_overlay self flux lower upper Hleg Hwf Hwfp)
    as (c' & Hc & Hs & Hadd & Hout).
  { intros i. destruct (Hall i) as (? & ? & ?). pose proof (Hfit i).
    unfold axis_ok. lia. }
  exists c'. split; [| split; [exact Hs | split; [| exact Hout]]].
  - rewrite Hc. f_equal. unfold corrections.
    replace (any3 (map3 (fun x => x <? 0) lower)) with true.
    + rewrite any3_lt0_false by (intros i; destruct (Hall i); lia).
      reflexivity.
    + symmetry. apply not_false_iff_true. intros Hf.
      pose proof (proj1 (any3_false _) Hf a) as Ha.
      rewrite component_map3 in Ha. apply Z.ltb_ge in Ha. lia.
  - intros idx Hb.
    destruct (Hadd idx) as (x & v & Hx & Hv & Hg); [| exact Hb |].
    { apply (in_box_in_shape self idx lower upper); [| exact Hb].
      intros i. destruct (Hall i) as (? & ? & ?). lia. }
    exists x, v. repeat split; try assumption.
    unfold patch_cell. rewrite component_zip3, Hlo. lia.
Qed.

(** A request that ends beyond the cube on some axis does not reach the
    addition: [_slice] raises. *)
Lemma add_flux_above_shape self flux lower upper i :
  component i (Cube.shapeZ self) < component i upper ->
  exists l, Cube.add_flux self flux (Some lower) (Some upper)
            = (l, Raise TypeError).
Proof.
  intros H.
  destruct (_slice_above_shape self lower upper i (or_intror H)) as [l Hl].
  exists l. unfold Cube.add_flux. rewrite Hl. reflexivity.
Qed.
End accumulation.

Lemma cube456_wf : wf3 (Cube.data cube456).
Proof. reflexivity. Defined.

(** Witness of C7: the region from [(1, 2, 3)] to [(3, 5, 4)] of the cube
    of shape [(4, 5, 6)], on the numpy that refuses the list. *)
Lemma add_flux_inside_raises_witness :
  Cube.add_flux cube456 patch231 (Some (1, 2, 3)) (Some (3, 5, 4))
  = ([], Raise IndexError).
Proof.
  apply (add_flux_inside_raises cube456 patch231 (1, 2, 3) (3, 5, 4)).
  - reflexivity.
  - intros []; cbn; lia.
Defined.

(** Witness of C8: requests that overhang the first axis of the cube of
    shape [(4, 5, 6)] by one cell, below and above. *)
Lemma add_flux_overhang_raises_witness :
  Cube.add_flux cube456 patch331 (Some (-1, 2, 3)) (Some (2, 5, 4))
  = ([warn_negative_lower (-1, 2, 3)], Raise IndexError)
  /\ exists l, Cube.add_flux cube456 patch331 (Some (2, 2, 3)) (Some (5, 5, 4))
               = (l, Raise TypeError).
Proof.
  split.
  - apply (add_flux_overhang_raises cube456 patch331 (-1, 2, 3) (2, 5, 4)
             ax0 1).
    + reflexivity.
    + lia.
    + intros [] Hne; cbn; try lia; contradiction.
    + reflexivity.
    + cbn. lia.
  - apply (add_flux_overhang_raises cube456 patch331 (2, 2, 3) (5, 5, 4)
             ax0 1).
    + reflexivity.
    + lia.
    + intros [] Hne; cbn; try lia; contradiction.
    + reflexivity.
Defined.

(** Witness of X20: the region from [(1, 2, 3)] to [(3, 5, 4)] of the
    cube of shape [(4, 5, 6)], on the numpy that reads the list as a
    tuple. *)
Lemma add_flux_adds_patch_witness :
  exists c',
    Cube.add_flux (Numpy0 := numpy_legacy) cube456 patch231
      (Some (1, 2, 3)) (Some (3, 5, 4))
    = ([], Return c')
    /\ shape3 (Cube.data c') = shape3 (Cube.data cube456)
    /\ (forall idx,
          in_box idx (1, 2, 3) (3, 5, 4) ->
          exists x v,
            get3 (Cube.data cube456) idx = Some x
            /\ get3 patch231 (patch_cell idx (1, 2, 3)) = Some v
            /\ get3 (Cube.data c') idx = Some (add x v))
    /\ (forall idx,
          ~ in_box idx (1, 2, 3) (3, 5, 4) ->
          get3 (Cube.data c') idx = get3 (Cube.data cube456) idx).
Proof.
  apply (add_flux_adds_patch (Numpy0 := numpy_legacy) cube456 patch231
           (1, 2, 3) (3, 5, 4)).
  - reflexivity.
  - exact cube456_wf.
  - reflexivity.
  - intros []; cbn; lia.
  - intros []; cbn; lia.
Defined.

(** Witness of X21: the request from [(-1, 2, 3)] to [(2, 5, 4)] on the
    cube of shape [(4, 5, 6)], on the numpy that reads the list as a
    tuple. *)
Lemma add_flux_trailing_patch_witness :
  exists c',
    Cube.add_flux (Numpy0 := numpy_legacy) cube456 patch331
      (Some (-1, 2, 3)) (Some (2, 5, 4))
    = ([warn_negative_lower (-1, 2, 3)], Return c')
    /\ shape3 (Cube.data c') = shape3 (Cube.data cube456)
    /\ (forall idx,
          in_box idx (-1, 2, 3) (2, 5, 4) ->
          exists x v,
            get3 (Cube.data cube456) idx = Some x
            /\ get3 patch331 (patch_cell idx (-1, 2, 3)) = Some v
            /\ Z.of_nat (component ax0 (patch_cell idx (-1, 2, 3)))
               = Z.of_nat (component ax0 idx) + 1
            /\ get3 (Cube.data c') idx = Some (add x v))
    /\ (forall idx,
          ~ in_box idx (-1, 2, 3) (2, 5, 4) ->
          get3 (Cube.data c') idx = get3 (Cube.data cube456) idx).
Proof.
  apply (add_flux_trailing_patch (Numpy0 := numpy_legacy) cube456 patch331
           (-1, 2, 3) (2, 5, 4) ax0 1).
  - reflexivity.
  - exact cube456_wf.
  - reflexivity.
  - intros []; cbn; lia.
  - lia.
  - reflexivity.
  - cbn. lia.
  - intros [] Hne; cbn; try lia. contradiction.
Defined.

(** The same overhang on a cube of shape [(2, 1, 2)] holding
    [1, 2, 3, 4], with the request ending before the last cell: where
    the list subscript is read as a tuple, of the patch [10, 20] laid
    from [(-1, 0, 1)] the trailing cell is added and the leading cell is
    dropped; where it is refused, nothing is added. *)
Lemma add_flux_lower_overhang_example :
  let c := Cube.mk (mk_array3 (2, 1, 2)%nat [1; 2; 3; 4]%float)
             (mk_ndarray [1; 2; 1; 2]%nat [false; false; false; false])
             3%nat casa_header "Jy/beam" in
  Cube.__init__ (mk_ndarray [1; 2; 1; 2]%nat [1; 2; 3; 4]%float) casa_header
  = ([], Return c)
  /\ Cube.add_flux (Numpy0 := numpy_legacy) c
       (mk_array3 (2, 1, 1)%nat [10; 20]%float)
       (Some (-1, 0, 1)) (Some (1, 1, 2))
     = ([warn_negative_lower (-1, 0, 1)],
        Return (Cube.mk (mk_array3 (2, 1, 2)%nat [1; 22; 3; 4]%float)
                  (Cube.mask c) (Cube.wcs c) (Cube.meta c) (Cube.unit c)))
  /\ Cube.add_flux (Numpy0 := numpy_modern) c
       (mk_array3 (2, 1, 1)%nat [10; 20]%float)
       (Some (-1, 0, 1)) (Some (1, 1, 2))
     = ([warn_negative_lower (-1, 0, 1)], Raise IndexError).
Proof. repeat split; vm_compute; reflexivity. Qed.

(** * Further properties *)

(** ** Region resolution: defaults, failure, what is returned *)

Section region_more.
Context {F : Type} `{!Dtype F} `{!Astropy F} `{!Numpy F}.
Implicit Types (self : Cube.t) (lower upper : triple Z) (i : axis).

Lemma any3_true (m : triple bool) :
  any3 m = true <-> exists i, component i m = true.
Proof.
  destruct m as [[a b] c]; simpl; split.
  - destruct a; [exists ax0; reflexivity |].
    destruct b; [exists ax1; reflexivity |].
    destruct c; [exists ax2; reflexivity | discriminate].
  - intros [i H]. destruct a, b, c, i; simpl in *; congruence.
Qed.

Lemma shapeZ_nonneg self i : 0 <= component i (Cube.shapeZ self).
Proof. unfold Cube.shapeZ. rewrite component_map3. lia. Qed.

Lemma corrections_nonneg lower upper :
  (forall i, 0 <= component i lower) -> (forall i, 0 <= component i upper) ->
  corrections lower upper = [].
Proof.
  intros Hl Hu. unfold corrections.
  now rewrite (any3_lt0_false _ Hl), (any3_lt0_false _ Hu).
Qed.

Lemma resolved_lower_component lower upper i :
  component i (resolved_lower lower upper)
  = if (component i lower <? 0) || (component i upper <? 0) then 0
    else component i lower.
Proof. unfold resolved_lower. now rewrite component_zip3. Qed.

Lemma triple_ext {A : Type} (s u : triple A) :
  (forall i, component i s = component i u) -> s = u.
Proof.
  destruct s as [[a b] c], u as [[a' b'] c']. intros H.
  pose proof (H ax0). pose proof (H ax1). pose proof (H ax2).
  simpl in *. congruence.
Qed.

Lemma resolved_lower_nonneg lower upper :
  (forall i, 0 <= component i lower) -> (forall i, 0 <= component i upper) ->
  resolved_lower lower upper = lower.
Proof.
  intros Hl Hu. apply triple_ext. intros i.
  rewrite resolved_lower_component.
  destruct (Z.ltb_spec (component i lower) 0),
    (Z.ltb_spec (component i upper) 0); simpl; try reflexivity;
    pose proof (Hl i); pose proof (Hu i); lia.
Qed.

(** X1. Called without bounds, [_slice] returns the whole cube, from
    zero to the shape on every axis, and writes no warning. *)
Theorem slice_defaults self :
  Cube._slice self None None
  = ([], Return (zip3 mk_slice (0, 0, 0) (Cube.shapeZ self))).
Proof.
  change (Cube._slice self None None)
    with (Cube._slice self (Some (0, 0, 0)) (Some (Cube.shapeZ self))).
  rewrite _slice_below_shape.
  - rewrite corrections_nonneg, resolved_lower_nonneg;
      try reflexivity; try (intros []; simpl; lia);
      intros i; apply shapeZ_nonneg.
  - intros i. replace (component i (0, 0, 0)) with 0 by (now destruct i).
    apply shapeZ_nonneg.
  - intros i. lia.
Qed.

(** X2. [_slice] raises exactly when some requested bound, lower or
    upper, is above the shape on its axis, and what it raises then is
    [TypeError]; on every other request it returns. *)
Theorem slice_raises_iff_above_shape self lower upper :
  ((exists i, component i (Cube.shapeZ self) < component i lower
              \/ component i (Cube.shapeZ self) < component i upper)
   <-> exists l, Cube._slice self (Some lower) (Some upper)
                 = (l, Raise TypeError))
  /\ (forall l e, Cube._slice self (Some lower) (Some upper) = (l, Raise e) ->
                 e = TypeError)
  /\ ((forall i, component i lower <= component i (Cube.shapeZ self)
                 /\ component i upper <= component i (Cube.shapeZ self))
      <-> exists l sl, Cube._slice self (Some lower) (Some upper)
                       = (l, Return sl)).
Proof.
  set (sh := Cube.shapeZ self).
  assert (Hdec : (exists i, component i sh < component i lower
                            \/ component i sh < component i upper)
                 \/ (forall i, component i lower <= component i sh
                               /\ component i upper <= component i sh)).
  { destruct (any3 (zip3 Z.gtb lower sh)) eqn:El.
    { apply any3_true in El as [i Hi]. rewrite component_zip3 in Hi.
      left. exists i. lia. }
    destruct (any3 (zip3 Z.gtb upper sh)) eqn:Eu.
    { apply any3_true in Eu as [i Hi]. rewrite component_zip3 in Hi.
      left. exists i. lia. }
    right. intros i.
    pose proof (proj1 (any3_false _) El i) as Hl.
    pose proof (proj1 (any3_false _) Eu i) as Hu.
    rewrite component_zip3 in Hl, Hu. lia. }
  assert (Hup : (exists i, component i sh < component i lower
                           \/ component i sh < component i upper) ->
                exists l, Cube._slice self (Some lower) (Some upper)
                          = (l, Raise TypeError)).
  { intros [i Hi]. exact (_slice_above_shape self lower upper i Hi). }
  assert (Hlow : (forall i, component i lower <= component i sh
                            /\ component i upper <= component i sh) ->
                 exists l sl, Cube._slice self (Some lower) (Some upper)
                              = (l, Return sl)).
  { intros H. eexists _, _. apply _slice_below_shape; intros i; apply H. }
  split; [| split].
  - split; [exact Hup |]. intros [l Hl].
    destruct Hdec as [? | Hb]; [assumption |].
    destruct (Hlow Hb) as (l' & sl & E). congruence.
  - intros l e E. destruct Hdec as [Ha | Hb].
    + destruct (Hup Ha) as [l' E']. congruence.
    + destruct (Hlow Hb) as (l' & sl & E'). congruence.
  - split; [exact Hlow |]. intros (l & sl & E).
    destruct Hdec as [Ha | ?]; [| assumption].
    destruct (Hup Ha) as [l' E']. congruence.
Qed.

(** A call of [_slice] that returns met no bound above the shape, and
    returns the bounds of [_slice_below_shape]. *)
Lemma _slice_Return_inv self lower upper l sl :
  Cube._slice self (Some lower) (Some upper) = (l, Return sl) ->
  (forall j, component j lower <= component j (Cube.shapeZ self)
             /\ component j upper <= component j (Cube.shapeZ self))
  /\ l = corrections lower upper
  /\ sl = zip3 mk_slice (resolved_lower lower upper) upper.
Proof.
  intros E.
  assert (Hb : forall j, component j lower <= component j (Cube.shapeZ self)
                         /\ component j upper <= component j (Cube.shapeZ self)).
  { intros j.
    destruct (Z.le_gt_cases (component j lower) (component j (Cube.shapeZ self)))
      as [Hl | Hl].
    - destruct (Z.le_gt_cases (component j upper)
                  (component j (Cube.shapeZ self))) as [Hu | Hu]; [lia |].
      destruct (_slice_above_shape self lower upper j (or_intror Hu))
        as [l' E']. congruence.
    - destruct (_slice_above_shape self lower upper j (or_introl Hl))
        as [l' E']. congruence. }
  split; [exact Hb |].
  rewrite _slice_below_shape in E by (intros j; apply Hb).
  injection E as <- <-. split; reflexivity.
Qed.

(** X3. What [_slice] returns, whenever it returns: on every axis the
    range ends at the requested upper bound, unchanged (a negative upper
    bound is not clamped), and starts at zero or at the requested lower
    bound, inside [[0, shape]]. *)
Theorem slice_returned_ranges self lower upper l sl i :
  Cube._slice self (Some lower) (Some upper) = (l, Return sl) ->
  stop (component i sl) = component i upper
  /\ component i upper <= component i (Cube.shapeZ self)
  /\ 0 <= start (component i sl) <= component i (Cube.shapeZ self)
  /\ (start (component i sl) = component i lower
      \/ start (component i sl) = 0).
Proof.
  intros E. apply _slice_Return_inv in E as (Hb & _ & ->).
  rewrite !component_zip3, resolved_lower_component. simpl.
  pose proof (shapeZ_nonneg self i). destruct (Hb i).
  destruct (Z.ltb_spec (component i lower) 0),
    (Z.ltb_spec (component i upper) 0); simpl; lia.
Qed.

(** X4. Resolving resolved bounds changes nothing: when [_slice] returns
    ranges, [_slice] on their starts and stops returns the same
    ranges. *)
Theorem slice_idempotent self lower upper l sl :
  Cube._slice self (Some lower) (Some upper) = (l, Return sl) ->
  exists l',
    Cube._slice self (Some (map3 start sl)) (Some (map3 stop sl))
    = (l', Return sl).
Proof.
  intros E. apply _slice_Return_inv in E as (Hb & _ & ->).
  set (rl := resolved_lower lower upper).
  assert (Hst : map3 start (zip3 mk_slice rl upper) = rl)
    by (apply triple_ext; intros i;
        now rewrite component_map3, component_zip3).
  assert (Hsp : map3 stop (zip3 mk_slice rl upper) = upper)
    by (apply triple_ext; intros i;
        now rewrite component_map3, component_zip3).
  rewrite Hst, Hsp.
  assert (Hrl : forall i, 0 <= component i rl <= component i (Cube.shapeZ self)).
  { intros i. unfold rl. rewrite resolved_lower_component.
    pose proof (shapeZ_nonneg self i). destruct (Hb i).
    destruct (Z.ltb_spec (component i lower) 0),
      (Z.ltb_spec (component i upper) 0); simpl; lia. }
  eexists. rewrite _slice_below_shape.
  - do 3 f_equal. apply triple_ext. intros i.
    rewrite resolved_lower_component. unfold rl.
    rewrite resolved_lower_component.
    destruct (Z.ltb_spec (component i lower) 0),
      (Z.ltb_spec (component i upper) 0); simpl; try reflexivity.
    destruct (Z.ltb_spec (component i lower) 0); [lia | reflexivity].
  - intros i. apply Hrl.
  - intros i. apply Hb.
Qed.
End region_more.

(** Witness of X3: the request from [(-1, 0, 0)] to [(-1, 5, 6)] on the
    cube of shape [(4, 5, 6)]. *)
Lemma slice_returned_ranges_witness :
  stop (component ax0 (mk_slice 0 (-1), mk_slice 0 5, mk_slice 0 6)) = -1
  /\ -1 <= component ax0 (Cube.shapeZ cube456)
  /\ 0 <= start (component ax0 (mk_slice 0 (-1), mk_slice 0 5, mk_slice 0 6))
       <= component ax0 (Cube.shapeZ cube456)
  /\ (start (component ax0 (mk_slice 0 (-1), mk_slice 0 5, mk_slice 0 6)) = -1
      \/ start (component ax0 (mk_slice 0 (-1), mk_slice 0 5, mk_slice 0 6))
         = 0).
Proof.
  apply (slice_returned_ranges cube456 (-1, 0, 0) (-1, 5, 6)
           [warn_negative_lower (-1, 0, 0); warn_negative_upper (-1, 5, 6)]
           (mk_slice 0 (-1), mk_slice 0 5, mk_slice 0 6) ax0).
  vm_compute. reflexivity.
Defined.

(** Witness of X4: the same request. *)
Lemma slice_idempotent_witness :
  exists l',
    Cube._slice cube456 (Some (0, 0, 0)) (Some (-1, 5, 6))
    = (l', Return (mk_slice 0 (-1), mk_slice 0 5, mk_slice 0 6)).
Proof.
  apply (slice_idempotent cube456 (-1, 0, 0) (-1, 5, 6)
           [warn_negative_lower (-1, 0, 0); warn_negative_upper (-1, 5, 6)]
           (mk_slice 0 (-1), mk_slice 0 5, mk_slice 0 6)).
  vm_compute. reflexivity.
Defined.

(** ** Construction: which headers and data are accepted *)

Section construction_more.
Context {F : Type} `{!Dtype F} `{!Astropy F} `{!Numpy F}.
Implicit Types (data : ndarray F) (meta : gmap string (hvalue F)).

(** X5. A header that lacks [BSCALE], [BZERO] or [BUNIT] ends the
    construction with [KeyError] on the first of them that is missing,
    before anything is logged and whatever the data are: the header is
    read before the number of axes is checked. *)
Theorem init_missing_keyword data meta (k : string) :
  first_missing meta = Some k ->
  Cube.__init__ data meta = ([], Raise (KeyError k)).
Proof.
  unfold first_missing, Cube.__init__, Cube.header_getitem. simpl.
  destruct (meta !! "BSCALE") as [vs |]; [| now intros [= <-]].
  destruct (meta !! "BZERO") as [vz |]; [| now intros [= <-]].
  destruct (meta !! "BUNIT") as [vu |]; [discriminate | now intros [= <-]].
Qed.

(** X6. The constructor returns a cube, with nothing logged, exactly on
    data of four axes with a header that holds numeric [BSCALE] and
    [BZERO] and a [BUNIT] string from which the unit parses and the
    coordinate system can be built and reduced. *)
Theorem init_returns_iff data meta :
  (exists c, Cube.__init__ data meta = ([], Return c))
  <-> header_ok meta /\ length (shape data) = 4%nat.
Proof.
  split.
  - intros [c H]. apply init_Return in H
      as (s & n0 & n1 & n2 & x & y & b & u & w & w' & H1 & H2 & H3 & H4 & H5
          & H6 & Hs & _ & _).
    split; [exists x, y, b, u, w, w'; auto 10 |]. now rewrite Hs.
  - intros [(x & y & b & u & w & w' & H1 & H2 & H3 & Hu & H5 & H6) Hn].
    destruct (shape data) as [| s [| n0 [| n1 [| n2 [| ? ?]]]]] eqn:Hs;
      try discriminate.
    eexists. now apply (init_4D data meta s n0 n1 n2 x y b u w w').
Qed.
End construction_more.

(** Witness of X5: a header without [BZERO], on data of three axes. *)
Lemma init_missing_keyword_witness :
  Cube.__init__ raw3d (delete "BZERO" casa_header)
  = ([], Raise (KeyError "BZERO")).
Proof.
  apply (init_missing_keyword raw3d (delete "BZERO" casa_header) "BZERO").
  vm_compute. reflexivity.
Defined.

(** ** Region extraction *)

Section extraction.
Context {F : Type} `{!Dtype F} `{!Astropy F} `{!Numpy F}.
Implicit Types (self : Cube.t) (a : array3 F) (lower upper : triple Z).
Implicit Types (idx sh : triple nat).

Lemma unravel_in_shape (p : nat) sh :
  (p < size3 sh)%nat ->
  in_shape (unravel_index p sh) sh = true
  /\ ravel_index (unravel_index p sh) sh = p.
Proof.
  destruct sh as [[s0 s1] s2]. simpl. intros Hp.
  assert (H1 : s1 <> 0%nat) by (intros ->; lia).
  assert (H2 : s2 <> 0%nat) by (intros ->; lia).
  assert (Hq : (p / (s1 * s2) = p / s2 / s1)%nat)
    by (rewrite Nat.Div0.div_div; f_equal; lia).
  split.
  - rewrite !andb_true_iff, !Nat.ltb_lt. repeat split.
    + apply Nat.Div0.div_lt_upper_bound. lia.
    + now apply Nat.mod_upper_bound.
    + now apply Nat.mod_upper_bound.
  - rewrite Hq.
    pose proof (Nat.div_mod_eq (p / s2) s1) as E1.
    pose proof (Nat.div_mod_eq p s2) as E2.
    nia.
Qed.

Lemma array3_ext a b :
  wf3 a -> wf3 b -> shape3 a = shape3 b ->
  (forall idx, in_shape idx (shape3 a) = true -> get3 a idx = get3 b idx) ->
  a = b.
Proof.
  destruct a as [sh la], b as [sh' lb]. unfold wf3. simpl.
  intros Ha Hb <- H. f_equal.
  apply list_eq. intros p.
  destruct (decide (p < size3 sh)%nat) as [Hp | Hp].
  - destruct (unravel_in_shape p sh Hp) as [Hin Hr].
    specialize (H _ Hin). unfold get3 in H. simpl in H.
    now rewrite Hin, Hr in H.
  - rewrite !lookup_ge_None_2 by lia. reflexivity.
Qed.

Lemma wf3_getitem3 a (sl : triple slice) : wf3 (getitem3 a sl).
Proof.
  unfold getitem3, wf3.
  destruct (ranges3 sl (shape3 a)) as [[[b0 n0] [b1 n1]] [b2 n2]].
  cbn [buf3 shape3]. now rewrite length_fmap, length_seq.
Qed.

Lemma slice_range_inside (lo up : Z) (s : nat) :
  0 <= lo <= up -> up <= Z.of_nat s ->
  slice_range (mk_slice lo up) s = (Z.to_nat lo, Z.to_nat (up - lo)).
Proof.
  intros H1 H2. unfold slice_range, adjust_index. simpl.
  destruct (Z.ltb_spec lo 0), (Z.ltb_spec up 0); try lia.
  f_equal; lia.
Qed.

(** The block a region inside the array selects: its extents are those
    of the region, and its cells are the cells of the array from
    [lower] on. *)
Lemma getitem3_inside a lower upper :
  wf3 a ->
  (forall i, 0 <= component i lower <= component i upper
             /\ component i upper <= Z.of_nat (component i (shape3 a))) ->
  shape3 (getitem3 a (zip3 mk_slice lower upper))
  = map3 Z.to_nat (zip3 Z.sub upper lower)
  /\ forall idx,
       in_shape idx (map3 Z.to_nat (zip3 Z.sub upper lower)) = true ->
       exists x,
         get3 a (zip3 (fun l n => (Z.to_nat l + n)%nat) lower idx) = Some x
         /\ get3 (getitem3 a (zip3 mk_slice lower upper)) idx = Some x.
Proof.
  intros Hwf H.
  destruct lower as [[l0 l1] l2], upper as [[u0 u1] u2].
  destruct (shape3 a) as [[s0 s1] s2] eqn:Es.
  pose proof (H ax0) as [H0 H0']. pose proof (H ax1) as [H1 H1'].
  pose proof (H ax2) as [H2 H2']. cbn [component] in *.
  assert (Er : ranges3 (zip3 mk_slice (l0, l1, l2) (u0, u1, u2)) (shape3 a)
               = ((Z.to_nat l0, Z.to_nat (u0 - l0)),
                  (Z.to_nat l1, Z.to_nat (u1 - l1)),
                  (Z.to_nat l2, Z.to_nat (u2 - l2)))).
  { rewrite Es. unfold ranges3. cbn [zip3].
    now rewrite !slice_range_inside by lia. }
  split.
  - rewrite shape3_getitem3, Er. reflexivity.
  - intros [[i j] k] Hin. cbn [zip3 map3 in_shape] in Hin |- *.
    destruct (get3_getitem3 a (zip3 mk_slice (l0, l1, l2) (u0, u1, u2))
                (i, j, k)) as [_ Hg].
    { rewrite Er. exact Hin. }
    rewrite Er in Hg. cbn [zip3 fst] in Hg.
    destruct (get3_Some a (Z.to_nat l0 + i, Z.to_nat l1 + j, Z.to_nat l2 + k)%nat
                Hwf) as [x Hx].
    { rewrite Es. cbn [in_shape].
      rewrite !andb_true_iff, !Nat.ltb_lt in Hin |- *. lia. }
    exists x. split; [exact Hx |]. rewrite Hg, Hx. reflexivity.
Qed.

(** X7. [get_slice()] without bounds returns the samples of the cube as
    they are, and writes no warning. *)
Theorem get_slice_whole self :
  wf3 (Cube.data self) ->
  Cube.get_slice self None None = ([], Return (Cube.data self)).
Proof.
  intros Hwf. unfold Cube.get_slice.
  change (Cube._slice self None None)
    with (Cube._slice self (Some (0, 0, 0)) (Some (Cube.shapeZ self))).
  assert (Hsh : forall i, component i (Cube.shapeZ self)
                = Z.of_nat (component i (shape3 (Cube.data self))))
    by (intros i; apply component_map3).
  assert (H0 : forall i, component i (0, 0, 0) = 0) by (now intros []).
  rewrite _slice_below_shape; cycle 1.
  { intros i. rewrite H0, Hsh. lia. }
  { intros i. lia. }
  rewrite corrections_nonneg, resolved_lower_nonneg;
    try (intros i; rewrite ?H0, ?Hsh; lia).
  rewrite bind_pair. unfold ret. cbn [fst snd app].
  do 2 f_equal.
  destruct (getitem3_inside (Cube.data self) (0, 0, 0) (Cube.shapeZ self) Hwf)
    as [Hs Hc].
  { intros i. rewrite H0, Hsh. lia. }
  assert (Hext : map3 Z.to_nat (zip3 Z.sub (Cube.shapeZ self) (0, 0, 0))
                 = shape3 (Cube.data self)).
  { apply triple_ext. intros i.
    rewrite component_map3, component_zip3, H0, Hsh. lia. }
  rewrite Hext in Hs, Hc.
  apply array3_ext; [apply wf3_getitem3 | exact Hwf | exact Hs |].
  rewrite Hs. intros idx Hin.
  destruct (Hc idx Hin) as (x & Hx & ->). rewrite <- Hx.
  f_equal. destruct idx as [[i j] k]. reflexivity.
Qed.

(** X8. For a region inside the cube with [lower <= upper],
    [get_slice] writes no warning and returns a block whose extents are
    [upper - lower] and whose cell at [idx] is the sample of the cube at
    [lower + idx]. *)
Theorem get_slice_inside self lower upper :
  wf3 (Cube.data self) -> in_bounds self lower upper ->
  (forall i, component i lower <= component i upper) ->
  exists blk,
    Cube.get_slice self (Some lower) (Some upper) = ([], Return blk)
    /\ shape3 blk = map3 Z.to_nat (zip3 Z.sub upper lower)
    /\ forall idx,
         in_shape idx (shape3 blk) = true ->
         exists x,
           get3 (Cube.data self)
             (zip3 (fun l n => (Z.to_nat l + n)%nat) lower idx) = Some x
           /\ get3 blk idx = Some x.
Proof.
  intros Hwf Hin Hle.
  assert (Hsh : forall i, component i (Cube.shapeZ self)
                = Z.of_nat (component i (shape3 (Cube.data self))))
    by (intros i; apply component_map3).
  unfold Cube.get_slice.
  rewrite _slice_below_shape by (intros i; destruct (Hin i); lia).
  rewrite corrections_nonneg, resolved_lower_nonneg
    by (intros i; destruct (Hin i); lia).
  rewrite bind_pair. unfold ret. cbn [fst snd app].
  destruct (getitem3_inside (Cube.data self) lower upper Hwf) as [Hs Hc].
  { intros i. destruct (Hin i) as [? ?]. pose proof (Hle i).
    rewrite <- Hsh. lia. }
  eexists. split; [reflexivity |]. split; [exact Hs |].
  rewrite Hs. exact Hc.
Qed.
End extraction.

(** Witness of X7 and of X8: the cube of shape [(4, 5, 6)]. *)
Lemma get_slice_whole_witness :
  Cube.get_slice cube456 None None = ([], Return (Cube.data cube456)).
Proof. apply (get_slice_whole cube456). exact cube456_wf. Defined.

Lemma get_slice_inside_witness :
  exists blk,
    Cube.get_slice cube456 (Some (1, 2, 3)) (Some (3, 5, 4)) = ([], Return blk)
    /\ shape3 blk = (2, 3, 1)%nat
    /\ forall idx,
         in_shape idx (shape3 blk) = true ->
         exists x,
           get3 (Cube.data cube456)
             (zip3 (fun l n => (Z.to_nat l + n)%nat) (1, 2, 3) idx) = Some x
           /\ get3 blk idx = Some x.
Proof.
  apply (get_slice_inside cube456 (1, 2, 3) (3, 5, 4)).
  - exact cube456_wf.
  - intros []; cbn; lia.
  - intros []; cbn; lia.
Defined.

(** ** Flux accumulation: what is kept, refused, repeated *)

Section accumulation_more.
Context {F : Type} `{!Dtype F} `{!Astropy F} `{!Numpy F}.
Implicit Types (self : Cube.t) (flux : array3 F) (lower upper : triple Z).

Lemma bind_Return_inv {A B : Type} (m : M A) (k : A -> M B)
    (l : list log_record) (b : B) :
  bind m k = (l, Return b) ->
  exists l1 a l2, m = (l1, Return a) /\ k a = (l2, Return b) /\ l = l1 ++ l2.
Proof.
  unfold bind. destruct m as [l1 [a | e]]; [| discriminate].
  destruct (k a) as [l2 r] eqn:E. intros [= <- ->]. eauto 6.
Qed.

Lemma wf3_iadd3 (a : array3 F) (sl : triple slice) (b a' : array3 F) :
  iadd3 a sl b = Return a' ->
  shape3 a' = shape3 a /\ length (buf3 a') = length (buf3 a).
Proof.
  intros E. split; [exact (shape3_iadd3 _ _ _ _ E) |].
  unfold iadd3 in E.
  destruct (ranges3 sl (shape3 a)) as [[[b0 n0] [b1 n1]] [b2 n2]].
  destruct (shape3 b) as [[m0 m1] m2].
  destruct (broadcastable m0 n0 && broadcastable m1 n1
            && broadcastable m2 n2); [| discriminate].
  injection E as <-. cbn [buf3]. apply length_imap.
Qed.

(** A call of [add_flux] that returns: the ranges came from [_slice],
    the addition in place went through, and the cube returned differs
    from the cube given in its samples only. *)
Lemma add_flux_Return_inv self flux (lower upper : option (triple Z)) l c' :
  Cube.add_flux self flux lower upper = (l, Return c') ->
  exists sli a',
    list_subscript_is_tuple = true
    /\ Cube._slice self lower upper = (l, Return sli)
    /\ iadd3 (Cube.data self) sli
         (getitem3 flux
            (zip3 (fun sl nm => Cube.crop sl (fst nm) (snd nm)) sli
               (zip3 pair (shape3 (Cube.data self)) (shape3 flux))))
       = Return a'
    /\ c' = Cube.mk a' (Cube.mask self) (Cube.wcs self) (Cube.meta self)
              (Cube.unit self).
Proof.
  unfold Cube.add_flux. intros E.
  apply bind_Return_inv in E as (l1 & sli & l2 & E1 & E2 & ->).
  apply bind_Return_inv in E2 as (l3 & blk & l4 & E3 & E4 & ->).
  apply bind_Return_inv in E4 as (l5 & a' & l6 & E5 & E6 & ->).
  unfold lift, list_subscript in E3.
  destruct list_subscript_is_tuple; [| discriminate].
  injection E3 as <- _.
  unfold lift in E5. injection E5 as <- E5.
  unfold ret in E6. injection E6 as <- <-.
  exists sli, a'. rewrite E1, !app_nil_r. auto.
Qed.



(** X10. A requested bound above the shape, lower or upper, on any
    axis, makes each of the region methods raise [TypeError]:
    [get_slice], [add_flux] and [get_features] all end in [_slice], no
    block is read, no sample is changed and no coordinate is
    transformed. *)
Theorem region_methods_raise_above_shape {W : Type}
    (wcs_pix2world : wcs_t -> list (triple Z) -> result W)
    self flux lower upper (i : axis) :
  component i (Cube.shapeZ self) < component i lower
  \/ component i (Cube.shapeZ self) < component i upper ->
  (exists l, Cube.get_slice self (Some lower) (Some upper)
             = (l, Raise TypeError))
  /\ (exists l, Cube.add_flux self flux (Some lower) (Some upper)
                = (l, Raise TypeError))
  /\ (exists l, Cube.get_features wcs_pix2world self (Some lower) (Some upper)
                = (l, Raise TypeError)).
Proof.
  intros H.
  destruct (_slice_above_shape self lower upper i H) as [l Hl].
  unfold Cube.get_slice, Cube.add_flux, Cube.get_features. rewrite Hl.
  repeat split; exists l; reflexivity.
Qed.

Lemma _slice_interior self lower upper :
  interior self lower upper ->
  Cube._slice self (Some lower) (Some upper)
  = ([], Return (zip3 mk_slice lower upper)).
Proof.
  intros H.
  rewrite _slice_below_shape by (intros i; destruct (H i); lia).
  rewrite corrections_nonneg, resolved_lower_nonneg
    by (intros i; destruct (H i); lia).
  reflexivity.
Qed.

Lemma crop_interior (lo up : Z) (s m : nat) :
  0 < lo -> up < Z.of_nat s ->
  slice_range (Cube.crop (mk_slice lo up) s m) m = (0%nat, m).
Proof.
  intros H1 H2. unfold Cube.crop, slice_range, adjust_index. simpl.
  destruct (Z.eqb_spec lo 0), (Z.eqb_spec up (Z.of_nat s)); try lia.
  simpl. destruct (Z.ltb_spec (Z.of_nat m) 0); [lia |].
  f_equal; lia.
Qed.

(** On an interior region the patch is used whole, and the region is
    the requested one. *)
Lemma interior_ranges self flux lower upper :
  interior self lower upper ->
  ranges3 (zip3 (fun sl nm => Cube.crop sl (fst nm) (snd nm))
             (zip3 mk_slice lower upper)
             (zip3 pair (shape3 (Cube.data self)) (shape3 flux)))
    (shape3 flux)
  = map3 (fun m => (0%nat, m)) (shape3 flux)
  /\ ranges3 (zip3 mk_slice lower upper) (shape3 (Cube.data self))
     = zip3 (fun l u => (Z.to_nat l, Z.to_nat (u - l))) lower upper.
Proof.
  intros H.
  assert (Hsh : forall i, component i (Cube.shapeZ self)
                = Z.of_nat (component i (shape3 (Cube.data self))))
    by (intros i; apply component_map3).
  pose proof (H ax0) as [H0 H0']. pose proof (H ax1) as [H1 H1'].
  pose proof (H ax2) as [H2 H2']. rewrite Hsh in H0', H1', H2'.
  destruct lower as [[l0 l1] l2], upper as [[u0 u1] u2].
  destruct (shape3 (Cube.data self)) as [[s0 s1] s2].
  destruct (shape3 flux) as [[m0 m1] m2].
  cbn [component] in *. unfold ranges3. cbn [zip3 map3 fst snd].
  rewrite !crop_interior by lia.
  rewrite !slice_range_inside by lia. split; reflexivity.
Qed.

(** X11. Where numpy reads a list of slices as a tuple (before version
    1.23): on an interior region, a patch whose extent on some axis is
    neither the extent of the region nor one is refused: [add_flux]
    raises [ValueError], with nothing logged and no cube returned. *)
Theorem add_flux_shape_mismatch self flux lower upper (i : axis) :
  list_subscript_is_tuple = true ->
  interior self lower upper ->
  Z.of_nat (component i (shape3 flux))
  <> component i upper - component i lower ->
  component i (shape3 flux) <> 1%nat ->
  Cube.add_flux self flux (Some lower) (Some upper) = ([], Raise ValueError).
Proof.
  intros Hleg Hint Hne H1.
  unfold Cube.add_flux. rewrite (_slice_interior _ _ _ Hint), bind_pair.
  rewrite list_subscript_tuple by exact Hleg.
  destruct (interior_ranges self flux lower upper Hint) as [Ef Er].
  pose proof (shape3_getitem3 flux
    (zip3 (fun sl nm => Cube.crop sl (fst nm) (snd nm))
       (zip3 mk_slice lower upper)
       (zip3 pair (shape3 (Cube.data self)) (shape3 flux)))) as Ep.
  rewrite Ef in Ep.
  assert (Ei : iadd3 (Cube.data self) (zip3 mk_slice lower upper)
                 (getitem3 flux
                    (zip3 (fun sl nm => Cube.crop sl (fst nm) (snd nm))
                       (zip3 mk_slice lower upper)
                       (zip3 pair (shape3 (Cube.data self)) (shape3 flux))))
               = Raise ValueError).
  { unfold iadd3. rewrite Er, Ep.
    destruct lower as [[l0 l1] l2], upper as [[u0 u1] u2].
    destruct (shape3 flux) as [[m0 m1] m2].
    cbn [zip3 map3 snd component] in *.
    assert (Hb : broadcastable m0 (Z.to_nat (u0 - l0))
                 && broadcastable m1 (Z.to_nat (u1 - l1))
                 && broadcastable m2 (Z.to_nat (u2 - l2)) = false).
    { pose proof (Hint ax0) as [? _]. pose proof (Hint ax1) as [? _].
      pose proof (Hint ax2) as [? _]. cbn [component] in *.
      unfold broadcastable.
      destruct i; cbn [component] in Hne, H1;
        repeat match goal with
               | |- context [(?a =? ?b)%nat] => destruct (Nat.eqb_spec a b)
               end; simpl; try reflexivity; lia. }
    now rewrite Hb. }
  rewrite Ei. reflexivity.
Qed.
End accumulation_more.

Section accumulation_compose.
Context {F : Type} `{!Dtype F} `{!Astropy F} `{!Numpy F}.
Implicit Types (self : Cube.t) (flux : array3 F) (lower upper : triple Z).

Lemma in_ranges_in_box (idx : triple nat) lower upper :
  (forall i, 0 <= component i lower <= component i upper) ->
  in_ranges idx (zip3 (fun l u => (Z.to_nat l, Z.to_nat (u - l))) lower upper)
  = true
  <-> in_box idx lower upper.
Proof.
  intros H. destruct idx as [[i j] k].
  destruct lower as [[l0 l1] l2], upper as [[u0 u1] u2].
  pose proof (H ax0). pose proof (H ax1). pose proof (H ax2).
  cbn [component zip3 in_ranges] in *. unfold in_box.
  rewrite !andb_true_iff, !Nat.leb_le, !Nat.ltb_lt. split.
  - intros Hr [| |]; cbn [component]; lia.
  - intros Hb. pose proof (Hb ax0). pose proof (Hb ax1). pose proof (Hb ax2).
    cbn [component] in *. lia.
Qed.

(** X12. Where numpy reads a list of slices as a tuple (before version
    1.23): on an interior region a patch of one cell is broadcast: its
    value is added to every sample of the region, and no other sample
    changes. *)
Theorem add_flux_single_cell self (v : F) lower upper :
  list_subscript_is_tuple = true ->
  wf3 (Cube.data self) -> interior self lower upper ->
  exists c',
    Cube.add_flux self (single_cell v) (Some lower) (Some upper)
    = ([], Return c')
    /\ (forall idx,
          in_box idx lower upper ->
          exists x, get3 (Cube.data self) idx = Some x
                    /\ get3 (Cube.data c') idx = Some (add x v))
    /\ (forall idx,
          ~ in_box idx lower upper ->
          get3 (Cube.data c') idx = get3 (Cube.data self) idx).
Proof.
  intros Hleg Hwf Hint.
  assert (Hsh : forall i, component i (Cube.shapeZ self)
                = Z.of_nat (component i (shape3 (Cube.data self))))
    by (intros i; apply component_map3).
  assert (Hle : forall i, 0 <= component i lower <= component i upper)
    by (intros i; destruct (Hint i); lia).
  unfold Cube.add_flux. rewrite (_slice_interior _ _ _ Hint), bind_pair.
  rewrite list_subscript_tuple by exact Hleg.
  destruct (interior_ranges self (single_cell v) lower upper Hint) as [Ef Er].
  set (f := zip3 (fun sl nm => Cube.crop sl (fst nm) (snd nm))
              (zip3 mk_slice lower upper)
              (zip3 pair (shape3 (Cube.data self)) (shape3 (single_cell v))))
    in *.
  pose proof (shape3_getitem3 (single_cell v) f) as Ep. rewrite Ef in Ep.
  cbn [single_cell shape3 map3 snd] in Ep.
  assert (Hg : get3 (getitem3 (single_cell v) f) (0, 0, 0)%nat = Some v).
  { destruct (get3_getitem3 (single_cell v) f (0, 0, 0)%nat) as [_ Hg].
    - rewrite Ef. reflexivity.
    - rewrite Hg, Ef. reflexivity. }
  destruct (iadd3 (Cube.data self) (zip3 mk_slice lower upper)
              (getitem3 (single_cell v) f)) as [a' | e] eqn:Ei.
  2:{ exfalso. unfold iadd3 in Ei. rewrite Ep in Ei.
      destruct (ranges3 (zip3 mk_slice lower upper) (shape3 (Cube.data self)))
        as [[[b0 n0] [b1 n1]] [b2 n2]].
      unfold broadcastable in Ei. rewrite !orb_true_r in Ei. discriminate. }
  eexists. split; [reflexivity |]. cbn [Cube.data].
  assert (Hcell : forall idx,
    in_shape idx (shape3 (Cube.data self)) = true ->
    get3 a' idx
    = (fun x => if in_ranges idx
                     (zip3 (fun l u => (Z.to_nat l, Z.to_nat (u - l)))
                        lower upper)
                then add x v else x) <$> get3 (Cube.data self) idx).
  { intros idx Hin.
    destruct (get3_iadd3 _ _ _ _ idx Ei Hin) as [_ Hc].
    rewrite Hc, Er, Ep. clear Hc.
    destruct (get3 (Cube.data self) idx) as [x |]; [| reflexivity].
    cbn [fmap option_fmap option_map]. f_equal.
    destruct (in_ranges idx _) eqn:Hr; [| reflexivity].
    f_equal.
    destruct idx as [[i j] k], lower as [[l0 l1] l2], upper as [[u0 u1] u2].
    cbn [zip3 map3 fst snd in_ranges] in Hr |- *.
    rewrite !andb_true_iff, !Nat.leb_le, !Nat.ltb_lt in Hr.
    assert (Hb : forall n b q : nat,
      (b <= q < b + n)%nat -> broadcast_index 1 n (q - b) = 0%nat).
    { intros n b q Hq. unfold broadcast_index.
      destruct (Nat.eqb_spec 1 n); lia. }
    rewrite !Hb by lia. now rewrite Hg. }
  split.
  - intros idx Hb.
    assert (Hin : in_shape idx (shape3 (Cube.data self)) = true).
    { apply (in_box_in_shape self idx lower upper); [| exact Hb].
      intros i. destruct (Hint i). rewrite <- Hsh. lia. }
    destruct (get3_Some (Cube.data self) idx Hwf Hin) as [x Hx].
    exists x. split; [exact Hx |].
    rewrite (Hcell idx Hin), Hx, (proj2 (in_ranges_in_box idx _ _ Hle) Hb).
    reflexivity.
  - intros idx Hnb.
    destruct (in_shape idx (shape3 (Cube.data self))) eqn:Hin.
    + rewrite (Hcell idx Hin).
      destruct (in_ranges idx _) eqn:Hr.
      * exfalso. apply Hnb, (in_ranges_in_box idx _ _ Hle), Hr.
      * destruct (get3 (Cube.data self) idx); reflexivity.
    + rewrite !get3_outside; [reflexivity | exact Hin |].
      now rewrite (shape3_iadd3 _ _ _ _ Ei).
Qed.

Lemma in_bounds_axis_ok self flux lower upper :
  in_bounds self lower upper -> patch_fits flux lower upper ->
  forall i, axis_ok (component i (shape3 (Cube.data self)))
              (component i (shape3 flux))
              (component i lower) (component i upper).
Proof.
  intros Hin Hfit i. destruct (Hin i) as [Hl Hu]. pose proof (Hfit i).
  unfold Cube.shapeZ in Hl, Hu. rewrite component_map3 in Hl, Hu.
  unfold axis_ok. lia.
Qed.

(** X13. Where numpy reads a list of slices as a tuple (before version
    1.23): a request that is empty on some axis ([lower = upper] there),
    inside the cube and with a patch of its extents, changes nothing:
    [add_flux] returns the cube it was given and writes no warning. *)
Theorem add_flux_empty_region self flux lower upper (i : axis) :
  list_subscript_is_tuple = true ->
  wf3 (Cube.data self) -> wf3 flux ->
  in_bounds self lower upper -> patch_fits flux lower upper ->
  component i lower = component i upper ->
  Cube.add_flux self flux (Some lower) (Some upper) = ([], Return self).
Proof.
  intros Hleg Hwf Hwfp Hin Hfit Hi.
  destruct (add_flux_overlay self flux lower upper Hleg Hwf Hwfp
              (in_bounds_axis_ok _ _ _ _ Hin Hfit))
    as (c' & Hc & Hs & _ & Hout).
  rewrite corrections_nonneg in Hc by (intros j; destruct (Hin j); lia).
  rewrite Hc. do 2 f_equal.
  destruct (add_flux_Return_inv _ _ _ _ _ _ Hc)
    as (sli & a' & _ & _ & Ei & ->).
  cbn [Cube.data] in Hs, Hout.
  assert (a' = Cube.data self) as ->.
  { destruct (wf3_iadd3 _ _ _ _ Ei) as [_ Hl].
    apply array3_ext; [| exact Hwf | exact Hs |].
    - unfold wf3. rewrite Hl, Hs. exact Hwf.
    - intros idx _. apply Hout. intros Hb. specialize (Hb i). lia. }
  destruct self. reflexivity.
Qed.

(** X14. Where numpy reads a list of slices as a tuple (before version
    1.23), reading back what was added: after [add_flux] on a region
    inside the cube with a patch of its extents, [get_slice] on the same
    region returns a block of the shape of the patch whose every cell is
    the former sample plus the patch cell at the same position. *)
Theorem get_slice_after_add_flux self flux lower upper :
  list_subscript_is_tuple = true ->
  wf3 (Cube.data self) -> wf3 flux ->
  in_bounds self lower upper -> patch_fits flux lower upper ->
  exists c' blk,
    Cube.add_flux self flux (Some lower) (Some upper) = ([], Return c')
    /\ Cube.get_slice c' (Some lower) (Some upper) = ([], Return blk)
    /\ shape3 blk = shape3 flux
    /\ forall idx,
         in_shape idx (shape3 flux) = true ->
         exists x v,
           get3 (Cube.data self)
             (zip3 (fun l n => (Z.to_nat l + n)%nat) lower idx) = Some x
           /\ get3 flux idx = Some v
           /\ get3 blk idx = Some (add x v).
Proof.
  intros Hleg Hwf Hwfp Hin Hfit.
  destruct (add_flux_overlay self flux lower upper Hleg Hwf Hwfp
              (in_bounds_axis_ok _ _ _ _ Hin Hfit))
    as (c' & Hc & Hs & Hadd & _).
  rewrite corrections_nonneg in Hc by (intros j; destruct (Hin j); lia).
  assert (Hwf' : wf3 (Cube.data c')).
  { destruct (add_flux_Return_inv _ _ _ _ _ _ Hc)
      as (sli & a' & _ & _ & Ei & ->).
    destruct (wf3_iadd3 _ _ _ _ Ei) as [Hs' Hl].
    unfold wf3. cbn [Cube.data]. rewrite Hl, Hs'. exact Hwf. }
  assert (Hsz : Cube.shapeZ c' = Cube.shapeZ self)
    by (unfold Cube.shapeZ; now rewrite Hs).
  assert (Hle : forall i, component i lower <= component i upper).
  { intros i. pose proof (Hfit i). lia. }
  assert (Hext : map3 Z.to_nat (zip3 Z.sub upper lower) = shape3 flux).
  { apply triple_ext. intros i.
    rewrite component_map3, component_zip3. pose proof (Hfit i). lia. }
  destruct (getitem3_inside (Cube.data c') lower upper Hwf') as [Hbs Hbc].
  { intros i. destruct (Hin i) as [? Hu]. pose proof (Hle i).
    rewrite Hs. unfold Cube.shapeZ in Hu. rewrite component_map3 in Hu. lia. }
  rewrite Hext in Hbs, Hbc.
  exists c', (getitem3 (Cube.data c') (zip3 mk_slice lower upper)).
  split; [exact Hc |]. split; [| split; [exact Hbs |]].
  - unfold Cube.get_slice.
    rewrite _slice_below_shape
      by (intros i; rewrite Hsz; destruct (Hin i); lia).
    rewrite corrections_nonneg, resolved_lower_nonneg
      by (intros j; destruct (Hin j); lia).
    now rewrite bind_pair.
  - intros idx Hidx.
    destruct (Hbc idx Hidx) as (y & Hy & Hb).
    set (cell := zip3 (fun l n => (Z.to_nat l + n)%nat) lower idx) in *.
    assert (Hbox : in_box cell lower upper).
    { intros i. unfold cell. rewrite component_zip3.
      destruct (Hin i) as [? _]. pose proof (Hfit i).
      assert (Hn : (component i idx < component i (shape3 flux))%nat).
      { destruct idx as [[a b] c], (shape3 flux) as [[m0 m1] m2].
        cbn [in_shape] in Hidx.
        rewrite !andb_true_iff, !Nat.ltb_lt in Hidx.
        destruct i; cbn [component]; lia. }
      lia. }
    destruct (Hadd cell) as (x & v & Hx & Hv & Hg); [| exact Hbox |].
    { apply (in_box_in_shape self cell lower upper); [| exact Hbox].
      intros i. destruct (Hin i) as [_ Hu].
      unfold Cube.shapeZ in Hu. rewrite component_map3 in Hu. lia. }
    assert (Hpc : patch_cell cell lower = idx).
    { apply triple_ext. intros i. unfold patch_cell, cell.
      rewrite !component_zip3. destruct (Hin i) as [? _]. lia. }
    rewrite Hpc in Hv.
    exists x, v. split; [exact Hx |]. split; [exact Hv |].
    rewrite Hb. congruence.
Qed.
End accumulation_compose.

(** ** Extrema on cubes that hold a valid sample *)

Section extrema_more.
Context {F : Type} `{!Dtype F} `{!Astropy F} `{!Numpy F}.
Implicit Types (self : Cube.t) (l : list F) (better : F -> F -> bool).

Lemma arg_best_lt better l : forall (bi : nat) (b : F) (i : nat),
  (bi < i)%nat -> (arg_best better bi b i l < i + length l)%nat.
Proof.
  induction l as [| x l IH]; intros bi b i Hi; simpl; [lia |].
  destruct (better x b).
  - specialize (IH i x (S i)). lia.
  - specialize (IH bi b (S i)). lia.
Qed.

(** A run of elements none of which beats the best so far is passed
    over. *)
Lemma arg_best_passes better l : forall (bi : nat) (b : F) (i : nat),
  Forall (fun x => better x b = false) l ->
  arg_best better bi b i l = bi.
Proof.
  induction l as [| x l IH]; intros bi b i Hl; [reflexivity |].
  inversion Hl as [| ? ? Hx Hl']; subst. simpl. rewrite Hx. now apply IH.
Qed.

Lemma arg_best_app better (l1 l2 : list F) (bi : nat) (b : F) (i : nat) :
  Forall (fun x => better x b = false) l1 ->
  arg_best better bi b i (l1 ++ l2)
  = arg_best better bi b (i + length l1) l2.
Proof.
  revert i. induction l1 as [| x l1 IH]; intros i Hl; simpl.
  - f_equal. lia.
  - inversion Hl as [| ? ? Hx Hl']; subst. rewrite Hx, IH by assumption.
    f_equal. lia.
Qed.

(** The position found in a buffer that holds [v] at [p] and a filler
    everywhere else, when [v] beats the filler and the filler beats
    neither [v] nor itself. *)
Lemma arg_best_single better (fill v : F) (l : list F) (p : nat) :
  better v fill = true -> better fill v = false ->
  better fill fill = false ->
  l !! p = Some v ->
  (forall q x, q <> p -> l !! q = Some x -> x = fill) ->
  match l with
  | [] => False
  | x :: t => arg_best better 0 x 1 t = p
  end.
Proof.
  intros Hv Hf Hff Hp Hrest.
  destruct l as [| x t]; [discriminate |].
  destruct p as [| p].
  - injection Hp as ->. apply arg_best_passes.
    apply Forall_lookup. intros q y Hq.
    rewrite (Hrest (S q) y); [exact Hf | lia | exact Hq].
  - assert (x = fill) as -> by (apply (Hrest 0%nat); [lia | reflexivity]).
    simpl in Hp.
    rewrite <- (take_drop_middle t p v Hp).
    rewrite arg_best_app.
    + simpl. rewrite Hv. rewrite arg_best_passes.
      * rewrite length_take_le; [lia |].
        apply lookup_lt_Some in Hp. lia.
      * apply Forall_lookup. intros q y Hq. rewrite lookup_drop in Hq.
        rewrite (Hrest (S (S p + q)) y); [exact Hf | lia | exact Hq].
    + apply Forall_lookup. intros q y Hq.
      apply lookup_take_Some in Hq as [Hq Hlt].
      rewrite (Hrest (S q) y); [exact Hff | lia | exact Hq].
Qed.

Lemma forallb_isnan_false l :
  Exists (fun x => isnan x = false) l -> forallb id (isnan <$> l) = false.
Proof.
  induction 1 as [x l Hx | x l _ IH]; rewrite fmap_cons; cbn [forallb].
  - now rewrite Hx.
  - rewrite IH. apply andb_false_r.
Qed.

(** X15. On a cube that holds at least one sample that is not NaN,
    [max] and [min] return: a sample of the cube together with its
    index, which lies inside the shape. *)
Theorem extrema_return self :
  wf3 (Cube.data self) ->
  Exists (fun x => isnan x = false) (buf3 (Cube.data self)) ->
  (exists y idx,
     Cube.max self = Return (y, idx)
     /\ in_shape idx (shape3 (Cube.data self)) = true
     /\ get3 (Cube.data self) idx = Some y)
  /\ (exists y idx,
        Cube.min self = Return (y, idx)
        /\ in_shape idx (shape3 (Cube.data self)) = true
        /\ get3 (Cube.data self) idx = Some y).
Proof.
  intros Hwf Hex.
  assert (Hidx : forall p : nat,
    (p < length (buf3 (Cube.data self)))%nat ->
    exists y,
      in_shape (unravel_index p (shape3 (Cube.data self)))
        (shape3 (Cube.data self)) = true
      /\ get3 (Cube.data self) (unravel_index p (shape3 (Cube.data self)))
         = Some y).
  { intros p Hp. rewrite Hwf in Hp.
    destruct (unravel_in_shape p _ Hp) as [Hin Hr].
    destruct (get3_Some (Cube.data self) _ Hwf Hin) as [y Hy]. eauto. }
  pose proof (forallb_isnan_false _ Hex) as Hm.
  unfold Cube.max, Cube.min, nanargmax, nanargmin. rewrite Hm.
  destruct (buf3 (Cube.data self)) as [| x t] eqn:Eb.
  { inversion Hex. }
  rewrite !fmap_cons. cbn [argmax argmin]. split.
  - edestruct (Hidx (arg_best (fun y b => less b y) 0
                       (if isnan x then neg_inf else x) 1
                       ((fun x => if isnan x then neg_inf else x) <$> t)))
      as (y & Hin & Hy).
    { pose proof (arg_best_lt (fun y b => less b y)
                    ((fun x => if isnan x then neg_inf else x) <$> t)
                    0 (if isnan x then neg_inf else x) 1) as Hlt.
      rewrite length_fmap in Hlt. simpl. lia. }
    rewrite Hy. eauto.
  - edestruct (Hidx (arg_best (fun y b => less y b) 0
                       (if isnan x then pos_inf else x) 1
                       ((fun x => if isnan x then pos_inf else x) <$> t)))
      as (y & Hin & Hy).
    { pose proof (arg_best_lt (fun y b => less y b)
                    ((fun x => if isnan x then pos_inf else x) <$> t)
                    0 (if isnan x then pos_inf else x) 1) as Hlt.
      rewrite length_fmap in Hlt. simpl. lia. }
    rewrite Hy. eauto.
Qed.
End extrema_more.

Section extrema_single.
Context {F : Type} `{!Dtype F} `{!Astropy F} `{!Numpy F}.
Implicit Types (self : Cube.t).

(** X16. On a cube whose only sample that is not NaN is [v], at [idx],
    with [v] strictly between the infinities, [max] and [min] both
    return [(v, idx)]. *)
Theorem extrema_single_valid self (idx : triple nat) (v : F) :
  wf3 (Cube.data self) ->
  in_shape idx (shape3 (Cube.data self)) = true ->
  only_valid_at self idx v -> between_infinities v ->
  Cube.max self = Return (v, idx) /\ Cube.min self = Return (v, idx).
Proof.
  intros Hwf Hin (Hv & Hnan & Hoth) (B1 & B2 & B3 & B4 & B5 & B6).
  set (l := buf3 (Cube.data self)) in *.
  set (sh := shape3 (Cube.data self)) in *.
  set (p := ravel_index idx sh).
  assert (Hp : l !! p = Some v).
  { unfold get3 in Hv. fold sh in Hv. now rewrite Hin in Hv. }
  assert (Hq : forall (q : nat) (x : F),
    q <> p -> l !! q = Some x -> isnan x = true).
  { intros q x Hne Hx.
    assert (Hlt : (q < size3 sh)%nat).
    { apply lookup_lt_Some in Hx. unfold l in Hx. now rewrite Hwf in Hx. }
    destruct (unravel_in_shape q sh Hlt) as [Hin' Hr].
    destruct (Hoth (unravel_index q sh) Hin') as (y & Hy & Hny).
    { intros E. apply Hne. unfold p. now rewrite <- E. }
    unfold get3 in Hy. fold sh in Hy. rewrite Hin', Hr in Hy.
    fold l in Hy. congruence. }
  assert (Hm : forallb id (isnan <$> l) = false).
  { apply forallb_isnan_false, Exists_exists. exists v. split; [| exact Hnan].
    eapply list_elem_of_lookup_2. exact Hp. }
  assert (Hfill : forall (fill : F),
    ((fun x => if isnan x then fill else x) <$> l) !! p = Some v
    /\ forall q x, q <> p ->
         ((fun x => if isnan x then fill else x) <$> l) !! q = Some x ->
         x = fill).
  { intros fill. split.
    - now rewrite list_lookup_fmap, Hp; simpl; rewrite Hnan.
    - intros q x Hne Hx. rewrite list_lookup_fmap in Hx.
      destruct (l !! q) as [y |] eqn:Ey; [| discriminate].
      simpl in Hx. rewrite (Hq q y Hne Ey) in Hx. congruence. }
  assert (Hidx : unravel_index p sh = idx) by (apply unravel_ravel, Hin).
  unfold Cube.max, Cube.min, nanargmax, nanargmin. fold l sh.
  rewrite Hm. split.
  - destruct (Hfill neg_inf) as [H1 H2].
    pose proof (arg_best_single (fun y b => less b y) neg_inf v _ p
                  B1 B2 B3 H1 H2) as Ha.
    destruct ((fun x => if isnan x then neg_inf else x) <$> l) as [| x t];
      [contradiction |].
    cbn [argmax]. rewrite Ha, Hidx, Hv. reflexivity.
  - destruct (Hfill pos_inf) as [H1 H2].
    pose proof (arg_best_single (fun y b => less y b) pos_inf v _ p
                  B4 B5 B6 H1 H2) as Ha.
    destruct ((fun x => if isnan x then pos_inf else x) <$> l) as [| x t];
      [contradiction |].
    cbn [argmin]. rewrite Ha, Hidx, Hv. reflexivity.
Qed.
End extrema_single.

(** ** The pixel rows of [get_features] *)

Section features.
Context {F : Type} `{!Dtype F} `{!Astropy F} `{!Numpy F}.
Implicit Types (self : Cube.t) (lower upper : triple Z).

Lemma length_bind_uniform {A B : Type} (g : A -> list B) (m : nat)
    (l : list A) :
  (forall x, length (g x) = m) -> length (l ≫= g) = (length l * m)%nat.
Proof.
  intros Hg. induction l as [| x l IH]; [reflexivity |].
  rewrite bind_cons, length_app, Hg, IH. simpl. lia.
Qed.

(** A position in a list of blocks of the same length. *)
Lemma lookup_bind_uniform {A B : Type} (g : A -> list B) (m : nat)
    (l : list A) (i j : nat) (x : A) :
  (forall y, length (g y) = m) -> (j < m)%nat -> l !! i = Some x ->
  (l ≫= g) !! (i * m + j)%nat = g x !! j.
Proof.
  intros Hg Hj. revert i. induction l as [| y l IH]; intros i Hi;
    [discriminate |].
  rewrite bind_cons. destruct i as [| i]; simpl in Hi.
  - injection Hi as ->. rewrite lookup_app_l by (rewrite Hg; lia).
    reflexivity.
  - rewrite lookup_app_r by (rewrite Hg; lia). rewrite Hg.
    replace (S i * m + j - m)%nat with (i * m + j)%nat by lia.
    now apply IH.
Qed.

Lemma length_arange (a b : Z) : length (arange a b) = Z.to_nat (b - a).
Proof. unfold arange. now rewrite length_fmap, length_seq. Qed.

Lemma lookup_arange (a b : Z) (i : nat) :
  (i < Z.to_nat (b - a))%nat -> arange a b !! i = Some (a + Z.of_nat i).
Proof.
  intros Hi. unfold arange. now rewrite list_lookup_fmap, lookup_seq_lt.
Qed.

(** A cell of a grid raveled in row-major order. *)
Lemma lookup_mesh (g : Z -> Z -> Z -> Z) (x y z : list Z) (i j k : nat)
    (xi yj zk : Z) :
  x !! i = Some xi -> y !! j = Some yj -> z !! k = Some zk ->
  (x ≫= (fun a => y ≫= (fun b => z ≫= (fun c => [g a b c]))))
    !! ((i * length y + j) * length z + k)%nat
  = Some (g xi yj zk).
Proof.
  intros Hx Hy Hz.
  assert (Hk : (k < length z)%nat) by (eapply lookup_lt_Some; eauto).
  assert (Hj : (j < length y)%nat) by (eapply lookup_lt_Some; eauto).
  assert (L1 : forall a b,
    length (z ≫= (fun c => [g a b c])) = length z).
  { intros a b. rewrite (length_bind_uniform _ 1) by reflexivity. lia. }
  assert (L2 : forall a,
    length (y ≫= (fun b => z ≫= (fun c => [g a b c])))
    = (length y * length z)%nat).
  { intros a. now apply length_bind_uniform. }
  replace ((i * length y + j) * length z + k)%nat
    with (i * (length y * length z) + (j * length z + k))%nat by lia.
  rewrite (lookup_bind_uniform _ (length y * length z) x i _ xi L2);
    [| nia | exact Hx].
  rewrite (lookup_bind_uniform _ (length z) y j k yj (L1 xi) Hk Hy).
  replace k with (k * 1 + 0)%nat at 1 by lia.
  now rewrite (lookup_bind_uniform _ 1 z k 0 zk) by (auto; lia).
Qed.

(** X17. For a region inside the cube with [lower <= upper],
    [get_features] hands to the coordinate transform one row per cell
    of the block [get_slice] returns, in the order of the block's
    buffer: the row at the position of the cell [idx] is the index
    [lower + idx] of its sample in the cube, written in the opposite
    axis order. *)
Theorem get_features_rows {W : Type}
    (wcs_pix2world : wcs_t -> list (triple Z) -> result W)
    self lower upper :
  in_bounds self lower upper ->
  (forall i, component i lower <= component i upper) ->
  let ext := map3 Z.to_nat (zip3 Z.sub upper lower) in
  let rows := pixel_rows (zip3 mk_slice lower upper) in
  Cube.get_features wcs_pix2world self (Some lower) (Some upper)
  = ([], wcs_pix2world (Cube.wcs self) rows)
  /\ (exists blk,
        Cube.get_slice self (Some lower) (Some upper) = ([], Return blk)
        /\ shape3 blk = ext /\ length rows = length (buf3 blk))
  /\ forall idx,
       in_shape idx ext = true ->
       rows !! ravel_index idx ext
       = Some (reversed (zip3 (fun l n => l + Z.of_nat n) lower idx)).
Proof.
  intros Hin Hle ext rows.
  assert (Hs : Cube._slice self (Some lower) (Some upper)
               = ([], Return (zip3 mk_slice lower upper))).
  { rewrite _slice_below_shape by (intros i; destruct (Hin i); lia).
    rewrite corrections_nonneg, resolved_lower_nonneg
      by (intros i; destruct (Hin i); lia).
    reflexivity. }
  destruct lower as [[l0 l1] l2], upper as [[u0 u1] u2].
  pose proof (Hle ax0) as H0. pose proof (Hle ax1) as H1.
  pose proof (Hle ax2) as H2. cbn [component] in H0, H1, H2.
  assert (Hlen : length rows
                 = (Z.to_nat (u0 - l0) * Z.to_nat (u1 - l1)
                    * Z.to_nat (u2 - l2))%nat).
  { unfold rows, pixel_rows, meshgrid_ij. cbn [zip3 start stop].
    rewrite !length_zip_with.
    rewrite !(length_bind_uniform _ (Z.to_nat (u1 - l1) * Z.to_nat (u2 - l2))).
    - rewrite length_arange. lia.
    - intros a.
      rewrite (length_bind_uniform _ (Z.to_nat (u2 - l2))), length_arange;
        [reflexivity |].
      intros b. rewrite (length_bind_uniform _ 1), length_arange by reflexivity.
      lia.
    - intros a.
      rewrite (length_bind_uniform _ (Z.to_nat (u2 - l2))), length_arange;
        [reflexivity |].
      intros b. rewrite (length_bind_uniform _ 1), length_arange by reflexivity.
      lia.
    - intros a.
      rewrite (length_bind_uniform _ (Z.to_nat (u2 - l2))), length_arange;
        [reflexivity |].
      intros b. rewrite (length_bind_uniform _ 1), length_arange by reflexivity.
      lia. }
  split; [| split].
  - unfold Cube.get_features. rewrite Hs, bind_pair. reflexivity.
  - exists (getitem3 (Cube.data self)
              (zip3 mk_slice (l0, l1, l2) (u0, u1, u2))).
    split; [unfold Cube.get_slice; now rewrite Hs, bind_pair |].
    assert (Er : ranges3 (zip3 mk_slice (l0, l1, l2) (u0, u1, u2))
                   (shape3 (Cube.data self))
                 = ((Z.to_nat l0, Z.to_nat (u0 - l0)),
                    (Z.to_nat l1, Z.to_nat (u1 - l1)),
                    (Z.to_nat l2, Z.to_nat (u2 - l2)))).
    { pose proof (Hin ax0) as [? Hu0]. pose proof (Hin ax1) as [? Hu1].
      pose proof (Hin ax2) as [? Hu2].
      unfold Cube.shapeZ in Hu0, Hu1, Hu2.
      rewrite component_map3 in Hu0, Hu1, Hu2.
      destruct (shape3 (Cube.data self)) as [[s0 s1] s2].
      cbn [component] in *. unfold ranges3. cbn [zip3].
      now rewrite !slice_range_inside by lia. }
    split.
    + rewrite shape3_getitem3, Er. reflexivity.
    + pose proof (wf3_getitem3 (Cube.data self)
                    (zip3 mk_slice (l0, l1, l2) (u0, u1, u2))) as Hw.
      unfold wf3 in Hw. rewrite Hw, shape3_getitem3, Er, Hlen. reflexivity.
  - intros [[i j] k] Hidx. unfold ext in Hidx |- *.
    cbn [zip3 map3 in_shape ravel_index reversed] in Hidx |- *.
    rewrite !andb_true_iff, !Nat.ltb_lt in Hidx.
    destruct Hidx as [[Hi Hj] Hk].
    pose proof (lookup_arange l0 u0 i Hi) as Hx.
    pose proof (lookup_arange l1 u1 j Hj) as Hy.
    pose proof (lookup_arange l2 u2 k Hk) as Hz.
    unfold rows, pixel_rows, meshgrid_ij. cbn [zip3 start stop].
    rewrite <- (length_arange l1 u1), <- (length_arange l2 u2).
    rewrite !lookup_zip_with.
    rewrite (lookup_mesh (fun _ _ c => c) _ _ _ i j k _ _ _ Hx Hy Hz).
    rewrite (lookup_mesh (fun _ b _ => b) _ _ _ i j k _ _ _ Hx Hy Hz).
    rewrite (lookup_mesh (fun a _ _ => a) _ _ _ i j k _ _ _ Hx Hy Hz).
    reflexivity.
Qed.
End features.

(** ** Witnesses *)


(** Witness of X10: an upper bound of 100 on the cube of shape
    [(4, 5, 6)], with the identity in place of the coordinate
    transform. *)
Lemma region_methods_raise_above_shape_witness :
  (exists l, Cube.get_slice cube456 (Some (0, 0, 0)) (Some (100, 100, 100))
             = (l, Raise TypeError))
  /\ (exists l, Cube.add_flux cube456 patch231 (Some (0, 0, 0))
                  (Some (100, 100, 100))
                = (l, Raise TypeError))
  /\ (exists l, Cube.get_features (fun _ rows => Return rows) cube456
                  (Some (0, 0, 0)) (Some (100, 100, 100))
                = (l, Raise TypeError)).
Proof.
  apply (region_methods_raise_above_shape (fun _ rows => Return rows)
           cube456 patch231 (0, 0, 0) (100, 100, 100) ax0).
  right. cbn. lia.
Defined.

(** Witness of X11: a patch of three rows on an interior region of two
    rows, under the numpy that reads a list of slices as a tuple. *)
Lemma add_flux_shape_mismatch_witness :
  Cube.add_flux (Numpy0 := numpy_legacy) cube456 patch231 (Some (1, 1, 1))
    (Some (3, 3, 3))
  = ([], Raise ValueError).
Proof.
  apply (add_flux_shape_mismatch (Numpy0 := numpy_legacy) cube456 patch231
           (1, 1, 1) (3, 3, 3) ax1).
  - reflexivity.
  - intros []; cbn; lia.
  - cbn. lia.
  - cbn. lia.
Defined.

(** Witness of X12: the value 5 on the region from [(1, 1, 1)] to
    [(3, 3, 3)], under the numpy that reads a list of slices as a
    tuple. *)
Lemma add_flux_single_cell_witness :
  exists c',
    Cube.add_flux (Numpy0 := numpy_legacy) cube456 (single_cell 5%float)
      (Some (1, 1, 1)) (Some (3, 3, 3))
    = ([], Return c')
    /\ (forall idx,
          in_box idx (1, 1, 1) (3, 3, 3) ->
          exists x, get3 (Cube.data cube456) idx = Some x
                    /\ get3 (Cube.data c') idx = Some (add x 5%float))
    /\ (forall idx,
          ~ in_box idx (1, 1, 1) (3, 3, 3) ->
          get3 (Cube.data c') idx = get3 (Cube.data cube456) idx).
Proof.
  apply (add_flux_single_cell (Numpy0 := numpy_legacy) cube456 5%float
           (1, 1, 1) (3, 3, 3)).
  - reflexivity.
  - exact cube456_wf.
  - intros []; cbn; lia.
Defined.

(** Witness of X13: the empty request at [(1, 2, 3)], under the numpy
    that reads a list of slices as a tuple. *)
Lemma add_flux_empty_region_witness :
  Cube.add_flux (Numpy0 := numpy_legacy) cube456 patch000 (Some (1, 2, 3))
    (Some (1, 2, 3))
  = ([], Return cube456).
Proof.
  apply (add_flux_empty_region (Numpy0 := numpy_legacy) cube456 patch000
           (1, 2, 3) (1, 2, 3) ax0).
  - reflexivity.
  - exact cube456_wf.
  - reflexivity.
  - intros []; cbn; lia.
  - intros []; cbn; lia.
  - reflexivity.
Defined.

(** Witness of X14: the region from [(1, 2, 3)] to [(3, 5, 4)], under
    the numpy that reads a list of slices as a tuple. *)
Lemma get_slice_after_add_flux_witness :
  exists c' blk,
    Cube.add_flux (Numpy0 := numpy_legacy) cube456 patch231 (Some (1, 2, 3))
      (Some (3, 5, 4))
    = ([], Return c')
    /\ Cube.get_slice c' (Some (1, 2, 3)) (Some (3, 5, 4)) = ([], Return blk)
    /\ shape3 blk = shape3 patch231
    /\ forall idx,
         in_shape idx (shape3 patch231) = true ->
         exists x v,
           get3 (Cube.data cube456)
             (zip3 (fun l n => (Z.to_nat l + n)%nat) (1, 2, 3) idx) = Some x
           /\ get3 patch231 idx = Some v
           /\ get3 blk idx = Some (add x v).
Proof.
  apply (get_slice_after_add_flux (Numpy0 := numpy_legacy) cube456 patch231
           (1, 2, 3) (3, 5, 4)).
  - reflexivity.
  - exact cube456_wf.
  - reflexivity.
  - intros []; cbn; lia.
  - intros []; cbn; lia.
Defined.

Lemma cube_one_valid_wf : wf3 (Cube.data cube_one_valid).
Proof. reflexivity. Defined.

(** Witness of X15: the cube holding NaN and 3. *)
Lemma extrema_return_witness :
  (exists y idx,
     Cube.max cube_one_valid = Return (y, idx)
     /\ in_shape idx (shape3 (Cube.data cube_one_valid)) = true
     /\ get3 (Cube.data cube_one_valid) idx = Some y)
  /\ (exists y idx,
        Cube.min cube_one_valid = Return (y, idx)
        /\ in_shape idx (shape3 (Cube.data cube_one_valid)) = true
        /\ get3 (Cube.data cube_one_valid) idx = Some y).
Proof.
  apply (extrema_return cube_one_valid).
  - exact cube_one_valid_wf.
  - apply Exists_cons_tl, Exists_cons_hd. reflexivity.
Defined.

(** Witness of X16: the same cube; its valid sample is at
    [(0, 0, 1)]. *)
Lemma extrema_single_valid_witness :
  Cube.max cube_one_valid = Return (3%float, (0, 0, 1)%nat)
  /\ Cube.min cube_one_valid = Return (3%float, (0, 0, 1)%nat).
Proof.
  apply (extrema_single_valid cube_one_valid (0, 0, 1)%nat 3%float).
  - exact cube_one_valid_wf.
  - reflexivity.
  - split; [reflexivity |]. split; [reflexivity |].
    intros [[i j] k] Hin Hne.
    change (((i <? 1)%nat && (j <? 1)%nat && (k <? 2)%nat) = true) in Hin.
    rewrite !andb_true_iff, !Nat.ltb_lt in Hin.
    destruct Hin as [[Hi Hj] Hk].
    destruct i as [| i]; [| lia]. destruct j as [| j]; [| lia].
    destruct k as [| [| k]]; [| congruence | lia].
    exists nan. split; reflexivity.
  - repeat split; reflexivity.
Defined.

(** Witness of X17: the region from [(1, 2, 3)] to [(3, 5, 4)] of the
    cube of shape [(4, 5, 6)], with the identity in place of the
    coordinate transform. *)
Lemma get_features_rows_witness :
  let ext := map3 Z.to_nat (zip3 Z.sub (3, 5, 4) (1, 2, 3)) in
  let rows := pixel_rows (zip3 mk_slice (1, 2, 3) (3, 5, 4)) in
  Cube.get_features (fun _ r => Return r) cube456 (Some (1, 2, 3))
    (Some (3, 5, 4))
  = ([], Return rows)
  /\ (exists blk,
        Cube.get_slice cube456 (Some (1, 2, 3)) (Some (3, 5, 4))
        = ([], Return blk)
        /\ shape3 blk = ext /\ length rows = length (buf3 blk))
  /\ forall idx,
       in_shape idx ext = true ->
       rows !! ravel_index idx ext
       = Some (reversed (zip3 (fun l n => l + Z.of_nat n) (1, 2, 3) idx)).
Proof.
  apply (get_features_rows (fun _ r => Return r) cube456 (1, 2, 3) (3, 5, 4)).
  - intros []; cbn; lia.
  - intros []; cbn; lia.
Defined.

(** The rows of that region, written out. *)
Lemma get_features_rows_example :
  pixel_rows (zip3 mk_slice (1, 2, 3) (3, 5, 4))
  = [(3, 2, 1); (3, 3, 1); (3, 4, 1); (3, 2, 2); (3, 3, 2); (3, 4, 2)].
Proof. reflexivity. Qed.

(** ** Requests that touch an edge or end below zero *)

Section edges.
Context {F : Type} `{!Dtype F} `{!Astropy F} `{!Numpy F}.
Implicit Types (self : Cube.t) (flux : array3 F) (lower upper : triple Z).

Lemma iadd3_refused (a : array3 F) (sl : triple slice) (b : array3 F)
    (i : axis) :
  broadcastable (component i (shape3 b))
    (snd (component i (ranges3 sl (shape3 a)))) = false ->
  iadd3 a sl b = Raise ValueError.
Proof.
  unfold iadd3.
  destruct (ranges3 sl (shape3 a)) as [[[b0 n0] [b1 n1]] [b2 n2]].
  destruct (shape3 b) as [[m0 m1] m2].
  destruct i; cbn [component snd]; intros ->;
    rewrite ?andb_false_r; reflexivity.
Qed.

Lemma component_shape3_getitem3 (a : array3 F) (sl : triple slice)
    (i : axis) :
  component i (shape3 (getitem3 a sl))
  = snd (slice_range (component i sl) (component i (shape3 a))).
Proof.
  rewrite shape3_getitem3, component_map3. unfold ranges3.
  now rewrite component_zip3.
Qed.

(** X18. Where numpy reads a list of slices as a tuple (before version
    1.23): a request that starts below zero and ends exactly at the shape
    on the same axis is cropped at both ends: unless the axis has
    exactly one cell more than the overhang, the cropped patch does not
    fit the region and [add_flux] raises [ValueError], after the
    corrections of [_slice] are logged. *)
Theorem add_flux_overhang_to_edge self flux lower upper (i : axis) :
  list_subscript_is_tuple = true ->
  (forall j, component j lower <= component j (Cube.shapeZ self)
             /\ component j upper <= component j (Cube.shapeZ self)) ->
  component i lower < 0 ->
  component i upper = component i (Cube.shapeZ self) ->
  0 < component i (Cube.shapeZ self) ->
  component i (Cube.shapeZ self) <> 1 - component i lower ->
  Z.of_nat (component i (shape3 flux))
  = component i upper - component i lower ->
  Cube.add_flux self flux (Some lower) (Some upper)
  = (corrections lower upper, Raise ValueError).
Proof.
  intros Hleg Hb Hlo Hup Hpos Hne Hm.
  unfold Cube.add_flux.
  rewrite _slice_below_shape by (intros j; apply Hb).
  rewrite bind_pair, list_subscript_tuple by exact Hleg.
  rewrite (iadd3_refused _ _ _ i).
  - cbn [fst snd]. now rewrite app_nil_r.
  - rewrite component_shape3_getitem3. unfold ranges3.
    rewrite !component_zip3, resolved_lower_component.
    cbn [fst snd].
    replace (component i lower <? 0) with true
      by (symmetry; apply Z.ltb_lt; exact Hlo).
    cbn [orb].
    unfold Cube.shapeZ in Hup, Hpos, Hne. rewrite component_map3 in Hup, Hpos, Hne.
    set (s := component i (shape3 (Cube.data self))) in *.
    set (m := component i (shape3 flux)) in *.
    rewrite Hup in *.
    unfold Cube.crop, slice_range, adjust_index, broadcastable.
    cbn [start stop snd fst].
    rewrite !Z.eqb_refl.
    repeat match goal with
           | |- context [?a <? 0] => destruct (Z.ltb_spec a 0); try lia
           end.
    apply orb_false_intro; apply Nat.eqb_neq; lia.
Qed.

Lemma length_pixel_rows (sl : triple slice) :
  length (pixel_rows sl)
  = size3 (map3 (fun s => Z.to_nat (stop s - start s)) sl).
Proof.
  destruct sl as [[[a0 b0] [a1 b1]] [a2 b2]].
  unfold pixel_rows, meshgrid_ij. cbn [map3 size3 start stop].
  assert (L : forall g : Z -> Z -> Z -> Z,
    length (arange a0 b0 ≫= (fun a => arange a1 b1 ≫= (fun b =>
              arange a2 b2 ≫= (fun c => [g a b c]))))
    = (Z.to_nat (b0 - a0) * Z.to_nat (b1 - a1) * Z.to_nat (b2 - a2))%nat).
  { intros g.
    rewrite (length_bind_uniform _ (Z.to_nat (b1 - a1) * Z.to_nat (b2 - a2))).
    - rewrite length_arange. lia.
    - intros a.
      rewrite (length_bind_uniform _ (Z.to_nat (b2 - a2))), length_arange;
        [reflexivity |].
      intros b. rewrite (length_bind_uniform _ 1), length_arange by reflexivity.
      lia. }
  rewrite !length_zip_with.
  rewrite (L (fun _ _ c => c)), (L (fun _ b _ => b)), (L (fun a _ _ => a)).
  lia.
Qed.

(** X19. An upper bound below zero is logged as corrected but kept:
    [get_slice] then reads it as numpy does, from the end of the axis,
    and returns a block with [shape + upper] cells on that axis (none if
    that is negative), while [get_features] counts from the start and
    hands no row at all to the coordinate transform. *)
Theorem negative_upper_kept {W : Type}
    (wcs_pix2world : wcs_t -> list (triple Z) -> result W)
    self lower upper (i : axis) :
  (forall j, component j lower <= component j (Cube.shapeZ self)
             /\ component j upper <= component j (Cube.shapeZ self)) ->
  component i upper < 0 ->
  (exists l blk,
     Cube.get_slice self (Some lower) (Some upper) = (l, Return blk)
     /\ warn_negative_upper upper ∈ l
     /\ component i (shape3 blk)
        = Z.to_nat (component i (Cube.shapeZ self) + component i upper))
  /\ Cube.get_features wcs_pix2world self (Some lower) (Some upper)
     = (corrections lower upper, wcs_pix2world (Cube.wcs self) []).
Proof.
  intros Hb Hneg.
  assert (Hany : any3 (map3 (fun x => x <? 0) upper) = true).
  { apply any3_true. exists i. rewrite component_map3.
    now apply Z.ltb_lt. }
  split.
  - eexists _, _. unfold Cube.get_slice.
    rewrite _slice_below_shape by (intros j; apply Hb).
    rewrite bind_pair. unfold ret. cbn [fst snd].
    split; [reflexivity |]. split.
    + rewrite app_nil_r. unfold corrections. rewrite Hany.
      apply elem_of_app. right. apply list_elem_of_singleton. reflexivity.
    + rewrite component_shape3_getitem3, component_zip3,
        resolved_lower_component.
      replace (component i upper <? 0) with true
        by (symmetry; apply Z.ltb_lt; exact Hneg).
      rewrite orb_true_r.
      unfold Cube.shapeZ. rewrite component_map3.
      unfold slice_range, adjust_index. cbn [start stop snd].
      replace (component i upper <? 0) with true
        by (symmetry; apply Z.ltb_lt; exact Hneg).
      cbn. lia.
  - unfold Cube.get_features.
    rewrite _slice_below_shape by (intros j; apply Hb).
    rewrite bind_pair. unfold lift. cbn [fst snd]. rewrite app_nil_r.
    do 2 f_equal. apply nil_length_inv.
    rewrite length_pixel_rows.
    assert (Hz : component i
                   (map3 (fun s => Z.to_nat (stop s - start s))
                      (zip3 mk_slice (resolved_lower lower upper) upper))
                 = 0%nat).
    { rewrite component_map3, component_zip3, resolved_lower_component.
      replace (component i upper <? 0) with true
        by (symmetry; apply Z.ltb_lt; exact Hneg).
      rewrite orb_true_r. cbn [start stop]. lia. }
    destruct (map3 (fun s => Z.to_nat (stop s - start s))
                (zip3 mk_slice (resolved_lower lower upper) upper))
      as [[n0 n1] n2].
    destruct i; cbn [component] in Hz; subst; cbn [size3]; lia.
Qed.
End edges.

(** Witness of X18: the request from [(-1, 0, 0)] to [(4, 5, 6)] on the
    cube of shape [(4, 5, 6)], under the numpy that reads a list of
    slices as a tuple. *)
Lemma add_flux_overhang_to_edge_witness :
  Cube.add_flux (Numpy0 := numpy_legacy) cube456 patch556 (Some (-1, 0, 0))
    (Some (4, 5, 6))
  = (corrections (-1, 0, 0) (4, 5, 6), Raise ValueError).
Proof.
  apply (add_flux_overhang_to_edge (Numpy0 := numpy_legacy) cube456 patch556
           (-1, 0, 0) (4, 5, 6) ax0).
  - reflexivity.
  - intros []; cbn; lia.
  - cbn. lia.
  - reflexivity.
  - cbn. lia.
  - cbn. lia.
  - reflexivity.
Defined.

(** Witness of X19: an upper bound of [-1] on the first axis of the cube
    of shape [(4, 5, 6)]: three planes are read, no row is formed. *)
Lemma negative_upper_kept_witness :
  (exists l blk,
     Cube.get_slice cube456 (Some (0, 0, 0)) (Some (-1, 5, 6))
     = (l, Return blk)
     /\ warn_negative_upper (-1, 5, 6) ∈ l
     /\ component ax0 (shape3 blk) = 3%nat)
  /\ Cube.get_features (fun _ r => Return r) cube456 (Some (0, 0, 0))
       (Some (-1, 5, 6))
     = (corrections (0, 0, 0) (-1, 5, 6), Return []).
Proof.
  apply (negative_upper_kept (fun _ r => Return r) cube456 (0, 0, 0)
           (-1, 5, 6) ax0).
  - intros []; cbn; lia.
  - cbn. lia.
Defined.
